(** * CineCritique backend services: a shallow embedding and its properties

    The development follows the four services of [src/backend/services]
    and the request handlers that drive them:

    - [CostTracker]   (cost_tracker.py):   the cost ledger and its persistence;
    - [CacheManager]  (cache_manager.py):  the disk cache wrapper and its counters;
    - [AIRouter]      (ai_router.py):      provider routing and response parsing;
    - [VideoProcessor] (video_processor.py): metadata, frame sampling, scene
      cuts, preprocessing;
    - [Main]          (main.py):           the analyze, chat and image handlers.

    Python objects are records threaded through a state-and-exception monad,
    exceptions are values of [exn], dictionaries are [gmap]s, and Python
    floats that carry money, frame rates and pixel means are exact rationals
    ([Qc]); every external library (diskcache, OpenCV, the two model back
    ends, the file system) appears as an explicit outcome handed to the call
    that consults it. *)

From Stdlib Require Import ZArith QArith Qcanon Qround String Ascii List Lia.
From Stdlib Require Import DecimalString Lqa Sorted.
From stdpp Require Import base option gmap strings list numbers.

Set Warnings "-register-all".

Open Scope Qc_scope.
Open Scope string_scope.

(** ** Python runtime: exceptions, results, arithmetic *)

(** The exception classes the services raise or let through. *)
Inductive exn : Type :=
| Exception (msg : string)          (* raise Exception("...") *)
| ValueError (msg : string)
| ZeroDivisionError
| JSONDecodeError
| OSError                           (* a failed open() / write *)
| BackendError (msg : string).      (* raised inside an external library *)

Inductive result (A : Type) : Type :=
| Ok (a : A)
| Raise (e : exn).
Arguments Ok {A} a.
Arguments Raise {A} e.

Definition rbind {A B} (r : result A) (k : A -> result B) : result B :=
  match r with Ok a => k a | Raise e => Raise e end.

(** A decimal literal [n / d], e.g. [dec 125 1000] for [0.125]. *)
Definition dec (n : Z) (d : positive) : Qc := Q2Qc (n # d).

Definition Z2Qc (z : Z) : Qc := Q2Qc (inject_Z z).

(** [a / b] on Python numbers: true division, raising on a zero divisor. *)
Definition py_div (a b : Qc) : result Qc :=
  if bool_decide (b = 0) then Raise ZeroDivisionError else Ok (a / b).

(** Round-half-even to an integer, then Python's [round(x, 2)]. *)
Definition round_half_even (x : Qc) : Z :=
  let f := Qfloor x in
  let d := x - Z2Qc f in
  if bool_decide (d < dec 1 2) then f
  else if bool_decide (dec 1 2 < d) then (f + 1)%Z
  else if Z.even f then f else (f + 1)%Z.

Definition round2 (x : Qc) : Qc :=
  Z2Qc (round_half_even (x * Z2Qc 100)) / Z2Qc 100.

(** ** cost_tracker.py *)

Module CostTracker.

(** [CostTracker.COST_PER_1K_TOKENS], as the literal lists it. *)
Definition price_list : list (string * Qc) :=
  [ ("gemini-3-pro-preview", dec 125 1000);
    ("gemini-1.5-flash", dec 1875 100000000);
    ("gemini-2.5-flash-image", dec 3 10000);
    ("imagen-4.0-generate-001", dec 4 100);
    ("imagen-3.0-generate-001", dec 2 100);
    ("local_llm", 0) ].

Definition COST_PER_1K_TOKENS : gmap string Qc := list_to_map price_list.

(** The attributes of a [CostTracker] instance. *)
Record t : Type := mk {
  total_cost : Qc;
  breakdown : gmap string Qc;
  api_calls : Z;
  cache_hits : Z
}.

(** What [_save] writes to [persist_path]. *)
Record costs_json : Type := mk_json {
  j_total_cost : Qc;
  j_breakdown : gmap string Qc;
  j_api_calls : Z;
  j_cache_hits : Z;
  j_last_updated : string
}.

(** The instance together with the file behind it. *)
Record world : Type := mk_world {
  self : t;
  persist_file : option costs_json
}.

(** What the surroundings decide for one call: whether the write of
    [persist_path] goes through, and what [datetime.now().isoformat()] reads. *)
Record env : Type := mk_env {
  write_ok : bool;
  now_iso : string
}.

(** Methods run in a state monad over [world] whose results may be raised
    exceptions; as in Python, attribute updates made before a raise stay. *)
Definition M (A : Type) : Type := world -> result A * world.

Definition ret {A} (a : A) : M A := fun w => (Ok a, w).

Definition bind {A B} (m : M A) (k : A -> M B) : M B :=
  fun w => match m w with
           | (Ok a, w') => k a w'
           | (Raise e, w') => (Raise e, w')
           end.

Definition update (f : t -> t) : M unit :=
  fun w => (Ok tt, mk_world (f (self w)) (persist_file w)).

Definition read {A} (f : t -> A) : M A := fun w => (Ok (f (self w)), w).

#[global] Instance tracker_ret : MRet M := @ret.
#[global] Instance tracker_bind : MBind M := fun A B k m => bind m k.

(** [__init__]: the attributes come from the file when it exists (a file
    that [_save] wrote, with all four entries), and start at zero otherwise. *)
Definition init (file : option costs_json) : world :=
  match file with
  | Some d => mk_world (mk (j_total_cost d) (j_breakdown d)
                           (j_api_calls d) (j_cache_hits d)) file
  | None => mk_world (mk 0 ∅ 0 0) None
  end.

Definition snapshot (now : string) (s : t) : costs_json :=
  mk_json (total_cost s) (breakdown s) (api_calls s) (cache_hits s) now.

Definition _save (e : env) : M unit :=
  fun w =>
    if write_ok e
    then (Ok tt, mk_world (self w) (Some (snapshot (now_iso e) (self w))))
    else (Raise OSError, w).

Definition add_cost (cost : Qc) (s : t) : t :=
  mk (total_cost s + cost) (breakdown s) (api_calls s) (cache_hits s).

Definition add_api_call (s : t) : t :=
  mk (total_cost s) (breakdown s) (api_calls s + 1) (cache_hits s).

(** [self.breakdown[key] = self.breakdown.get(key, 0.0) + cost] *)
Definition add_breakdown (key : string) (cost : Qc) (s : t) : t :=
  mk (total_cost s)
     (<[key := default 0 (breakdown s !! key) + cost]> (breakdown s))
     (api_calls s) (cache_hits s).

Definition add_cache_hit (s : t) : t :=
  mk (total_cost s) (breakdown s) (api_calls s) (cache_hits s + 1).

Definition analysis_cost (provider model : string) (tokens : Z) : Qc :=
  if String.eqb provider "local_llm" then 0
  else
    let cost_per_1k := default (dec 5 100) (COST_PER_1K_TOKENS !! model) in
    (Z2Qc tokens / Z2Qc 1000) * cost_per_1k.

Definition record_analysis (e : env) (provider model : string) (tokens : Z)
  : M Qc :=
  let cost := analysis_cost provider model tokens in
  update (add_cost cost) ;;
  update add_api_call ;;
  let key := "analysis_" +:+ provider in
  update (add_breakdown key cost) ;;
  _save e ;;
  ret cost.

Definition chat_cost (provider : string) (tokens : Z) : Qc :=
  if String.eqb provider "local_llm" then 0
  else
    let model := "gemini-1.5-flash" in
    let cost_per_1k :=
      default (dec 1875 100000000) (COST_PER_1K_TOKENS !! model) in
    (Z2Qc tokens / Z2Qc 1000) * cost_per_1k.

Definition record_chat (e : env) (provider : string) (tokens : Z) : M Qc :=
  let cost := chat_cost provider tokens in
  update (add_cost cost) ;;
  update add_api_call ;;
  let key := "chat_" +:+ provider in
  update (add_breakdown key cost) ;;
  _save e ;;
  ret cost.

Definition image_cost (model : string) : Qc :=
  default (dec 2 100) (COST_PER_1K_TOKENS !! model).

Definition record_image_generation (e : env) (provider model : string)
  : M Qc :=
  let cost := image_cost model in
  update (add_cost cost) ;;
  update add_api_call ;;
  let key := "image_generation" in
  update (add_breakdown key cost) ;;
  _save e ;;
  ret cost.

Definition record_cache_hit (e : env) (operation : string) : M unit :=
  update add_cache_hit ;;
  _save e.

Definition reset (e : env) : M unit :=
  update (fun _ => mk 0 ∅ 0 0) ;;
  _save e.

Record cost_report : Type := mk_cost_report {
  r_total_cost : Qc;
  r_breakdown : gmap string Qc;
  r_api_calls : Z;
  r_cache_hits : Z;
  r_cache_hit_rate : Qc;
  r_costs_saved : Qc;
  r_net_cost : Qc
}.

Definition get_report : M cost_report :=
  s ← read id;
  let total_operations := (api_calls s + cache_hits s)%Z in
  let cache_hit_rate :=
    if bool_decide (0 < total_operations)%Z
    then Z2Qc (cache_hits s) / Z2Qc total_operations * Z2Qc 100 else 0 in
  let avg_analysis_cost := Z2Qc 2 in
  let costs_saved := Z2Qc (cache_hits s) * avg_analysis_cost in
  ret (mk_cost_report (round2 (total_cost s)) (round2 <$> breakdown s)
                      (api_calls s) (cache_hits s) (round2 cache_hit_rate)
                      (round2 costs_saved)
                      (round2 (total_cost s - costs_saved))).

Definition is_budget_exceeded (monthly_budget : Qc) : M bool :=
  read (fun s => bool_decide (monthly_budget < total_cost s)).



(** One recording call, as the request handlers issue them. *)
Inductive call : Type :=
| RecordAnalysis (provider model : string) (tokens : Z)
| RecordChat (provider : string) (tokens : Z)
| RecordImageGeneration (provider model : string)
| RecordCacheHit (operation : string).

Definition tokens_of (c : call) : Z :=
  match c with
  | RecordAnalysis _ _ tokens | RecordChat _ tokens => tokens
  | RecordImageGeneration _ _ | RecordCacheHit _ => 0
  end.

(** The world after one call; a raised exception ends the call, not the
    tracker, which the next request uses as it stands. *)
Definition run_call (ec : env * call) (w : world) : world :=
  match ec with
  | (e, RecordAnalysis p m n) => snd (record_analysis e p m n w)
  | (e, RecordChat p n) => snd (record_chat e p n w)
  | (e, RecordImageGeneration p m) => snd (record_image_generation e p m w)
  | (e, RecordCacheHit o) => snd (record_cache_hit e o w)
  end.

Definition run_calls (cs : list (env * call)) (w : world) : world :=
  fold_left (fun w ec => run_call ec w) cs w.

(** A call whose token count, when it has one, is not negative. *)
Definition nonneg_tokens (ec : env * call) : Prop := (0 <= tokens_of ec.2)%Z.

(** What a completed recording call leaves behind: the cost added to the
    running total and to the bucket [key], one more API call, and the
    whole ledger written to the file with the time of the call. *)
Definition recorded (e : env) (key : string) (cost : Qc) (w w' : world)
  : Prop :=
  total_cost (self w') = total_cost (self w) + cost /\
  breakdown (self w') =
    <[key := default 0 (breakdown (self w) !! key) + cost]>
      (breakdown (self w)) /\
  api_calls (self w') = (api_calls (self w) + 1)%Z /\
  cache_hits (self w') = cache_hits (self w) /\
  persist_file w' = Some (snapshot (now_iso e) (self w')).

(** Which calls are recordings of a provider call, and which of a cache
    hit; how many of each a sequence holds. *)
Definition is_cache_hit_call (c : call) : bool :=
  match c with RecordCacheHit _ => true | _ => false end.

Definition count_api_calls (cs : list (env * call)) : Z :=
  Z.of_nat (length (List.filter (fun ec => negb (is_cache_hit_call ec.2)) cs)).

Definition count_cache_hits (cs : list (env * call)) : Z :=
  Z.of_nat (length (List.filter (fun ec => is_cache_hit_call ec.2) cs)).

(** The price a model is charged at per 1000 tokens by [record_analysis]. *)
Definition analysis_price (model : string) : Qc :=
  default (dec 5 100) (COST_PER_1K_TOKENS !! model).

End CostTracker.

(** ** cache_manager.py *)

Module CacheManager.

Section WithValue.

(** The cached Python objects; [None : option V] is Python's [None]. *)
Context {V : Type}.

(** diskcache's [Cache], as far as the manager relies on it: a durable
    map from key to the stored object and its expiry time.  An entry
    stored without [expire] never expires; one stored with [expire] is
    absent for every read at or after [store time + expire]. *)
Record entry : Type := mk_entry {
  value : option V;
  expire_time : option Qc
}.

Definition live (now : Qc) (e : entry) : bool :=
  match expire_time e with
  | None => true
  | Some t => bool_decide (now < t)
  end.

(** [Cache.get(key)]: the default [None] for a missing or expired key. *)
Definition cache_get (now : Qc) (key : string) (c : gmap string entry)
  : option V :=
  match c !! key with
  | Some e => if live now e then value e else None
  | None => None
  end.

(** [Cache.set(key, value, expire=...)]. *)
Definition cache_set (now : Qc) (key : string) (v : option V)
    (expire : option Z) (c : gmap string entry) : gmap string entry :=
  <[key := mk_entry v ((fun ttl => now + Z2Qc ttl) <$> expire)]> c.

(** [Cache.delete(key)]: whether a live entry was removed. *)
Definition cache_delete (now : Qc) (key : string) (c : gmap string entry)
  : bool * gmap string entry :=
  match c !! key with
  | Some e => if live now e then (true, delete key c) else (false, c)
  | None => (false, c)
  end.

(** [self.stats]. *)
Record stats : Type := mk_stats {
  hits : Z;
  misses : Z;
  sets : Z
}.

Record t : Type := mk {
  cache : gmap string entry;
  self_stats : stats
}.

(** What the surroundings decide for one call: whether the diskcache
    operation raises, the clock, and the on-disk volume in bytes. *)
Record env : Type := mk_env {
  store_raises : bool;
  now : Qc;
  volume : Z
}.

(** Every method catches what the store raises, so a call always
    returns a value and the next state. *)
Definition M (A : Type) : Type := t -> A * t.

(** [__init__]: the counters start at zero over the store found on disk. *)
Definition init (on_disk : gmap string entry) : t :=
  mk on_disk (mk_stats 0 0 0).

Definition is_healthy (e : env) : M bool :=
  fun s => (negb (store_raises e), s).

Definition count_hit (s : stats) : stats :=
  mk_stats (hits s + 1) (misses s) (sets s).
Definition count_miss (s : stats) : stats :=
  mk_stats (hits s) (misses s + 1) (sets s).
Definition count_set (s : stats) : stats :=
  mk_stats (hits s) (misses s) (sets s + 1).

Definition get (e : env) (key : string) : M (option V) :=
  fun s =>
    if store_raises e then (None, s)               (* except: return None *)
    else
      let value := cache_get (now e) key (cache s) in
      match value with
      | Some _ => (value, mk (cache s) (count_hit (self_stats s)))
      | None => (value, mk (cache s) (count_miss (self_stats s)))
      end.

(** Python truthiness of [ttl : Optional[int]]. *)
Definition truthy (ttl : option Z) : bool :=
  match ttl with
  | Some n => negb (n =? 0)%Z
  | None => false
  end.

Definition set (e : env) (key : string) (v : option V) (ttl : option Z)
  : M bool :=
  fun s =>
    if store_raises e then (false, s)              (* except: return False *)
    else
      let c := if truthy ttl
               then cache_set (now e) key v ttl (cache s)
               else cache_set (now e) key v None (cache s) in
      (true, mk c (count_set (self_stats s))).

Definition delete (e : env) (key : string) : M bool :=
  fun s =>
    if store_raises e then (false, s)
    else
      let '(deleted, c) := cache_delete (now e) key (cache s) in
      (deleted, mk c (self_stats s)).

Definition clear_all (e : env) : M bool :=
  fun s =>
    if store_raises e then (false, s)
    else (true, mk ∅ (self_stats s)).

Record stats_report : Type := mk_report {
  r_hits : Z;
  r_misses : Z;
  r_sets : Z;
  r_hit_rate : Qc;       (* percent, before formatting *)
  r_size_mb : Qc;
  r_entries : nat
}.

Definition get_stats (e : env) : M stats_report :=
  fun s =>
    let st := self_stats s in
    let total := (hits st + misses st)%Z in
    let hit_rate :=
      if bool_decide (0 < total)%Z
      then Z2Qc (hits st) / Z2Qc total * Z2Qc 100 else 0 in
    (mk_report (hits st) (misses st) (sets st) hit_rate
               (Z2Qc (volume e) / Z2Qc (1024 * 1024)) (size (cache s)), s).

(** The calls a client can make on a manager. *)
Inductive call : Type :=
| CallIsHealthy
| CallGet (key : string)
| CallSet (key : string) (v : option V) (ttl : option Z)
| CallDelete (key : string)
| CallClearAll
| CallGetStats.

Definition run_call (e : env) (c : call) (s : t) : t :=
  match c with
  | CallIsHealthy => snd (is_healthy e s)
  | CallGet key => snd (get e key s)
  | CallSet key v ttl => snd (set e key v ttl s)
  | CallDelete key => snd (delete e key s)
  | CallClearAll => snd (clear_all e s)
  | CallGetStats => snd (get_stats e s)
  end.

Definition run_calls (cs : list (env * call)) (s : t) : t :=
  fold_left (fun s ec => run_call ec.1 ec.2 s) cs s.




End WithValue.

Arguments entry : clear implicits.
Arguments t : clear implicits.
Arguments call : clear implicits.

End CacheManager.

(** ** ai_router.py *)

#[global] Instance result_ret : MRet result := @Ok.
#[global] Instance result_bind : MBind result := fun A B k r => rbind r k.

(** *** The [json] library: values and [json.loads] *)

Module Json.

Inductive value : Type :=
| Null
| Bool (b : bool)
| Number (lexeme : string)
| Str (s : string)
| Array (items : list value)
| Object (members : list (string * value)).

Definition quote : ascii := "034"%char.
Definition backslash : ascii := "092"%char.

Definition is_ws (c : ascii) : bool :=
  match c with
  | " "%char | "009"%char | "010"%char | "013"%char => true
  | _ => false
  end.

Fixpoint skip_ws (s : string) : string :=
  match s with
  | String c r => if is_ws c then skip_ws r else s
  | EmptyString => s
  end.

Definition is_digit (c : ascii) : bool :=
  (48 <=? nat_of_ascii c)%nat && (nat_of_ascii c <=? 57)%nat.

(** The leading digits of [s] and what follows them. *)
Fixpoint digits (s : string) : string * string :=
  match s with
  | String c r =>
      if is_digit c then let '(d, r') := digits r in (String c d, r')
      else ("", s)
  | EmptyString => ("", s)
  end.

Definition starts_with (p s : string) : option string :=
  if String.prefix p s
  then Some (substring (String.length p) (String.length s - String.length p) s)
  else None.

(** A number, kept as its lexeme: [-? digits (. digits)? ([eE] [+-]? digits)?]. *)
Definition parse_number (s : string) : option (string * string) :=
  let '(sign, s1) :=
    match s with String "-"%char r => ("-", r) | _ => ("", s) end in
  let '(int_part, s2) := digits s1 in
  if String.eqb int_part "" then None
  else
    let '(frac, s3) :=
      match s2 with
      | String "."%char r =>
          let '(d, r') := digits r in
          if String.eqb d "" then ("", s2) else ("." +:+ d, r')
      | _ => ("", s2)
      end in
    let '(expo, s4) :=
      match s3 with
      | String c r =>
          if Ascii.eqb c "e"%char || Ascii.eqb c "E"%char then
            let '(sg, r1) :=
              match r with
              | String "+"%char r' => ("+", r')
              | String "-"%char r' => ("-", r')
              | _ => ("", r)
              end in
            let '(d, r2) := digits r1 in
            if String.eqb d "" then ("", s3)
            else (String c (sg +:+ d), r2)
          else ("", s3)
      | EmptyString => ("", s3)
      end in
    Some (sign +:+ int_part +:+ frac +:+ expo, s4).

Definition unescape (c : ascii) : option ascii :=
  match c with
  | "034"%char => Some "034"%char
  | "092"%char => Some "092"%char
  | "/"%char => Some "/"%char
  | "b"%char => Some "008"%char
  | "f"%char => Some "012"%char
  | "n"%char => Some "010"%char
  | "r"%char => Some "013"%char
  | "t"%char => Some "009"%char
  | _ => None
  end.

(** The body of a string literal, after its opening quote.  A [\u] escape
    is kept as written. *)
Fixpoint parse_string (s : string) : option (string * string) :=
  match s with
  | EmptyString => None
  | String c r =>
      if Ascii.eqb c quote then Some ("", r)
      else if Ascii.eqb c backslash then
        match r with
        | String e r' =>
            match unescape e with
            | Some c' =>
                match parse_string r' with
                | Some (str, rest) => Some (String c' str, rest)
                | None => None
                end
            | None =>
                if Ascii.eqb e "u"%char then
                  match parse_string r' with
                  | Some (str, rest) => Some (String c (String e str), rest)
                  | None => None
                  end
                else None
            end
        | EmptyString => None
        end
      else if (nat_of_ascii c <? 32)%nat then None
      else
        match parse_string r with
        | Some (str, rest) => Some (String c str, rest)
        | None => None
        end
  end.

Definition parse_literal (s : string) : option (value * string) :=
  match starts_with "null" s, starts_with "true" s, starts_with "false" s with
  | Some r, _, _ => Some (Null, r)
  | _, Some r, _ => Some (Bool true, r)
  | _, _, Some r => Some (Bool false, r)
  | _, _, _ =>
      match parse_number s with
      | Some (n, r) => Some (Number n, r)
      | None => None
      end
  end.

Fixpoint parse_value (fuel : nat) (s : string) {struct fuel}
  : option (value * string) :=
  match fuel with
  | O => None
  | S fuel =>
      match skip_ws s with
      | String "{"%char r =>
          match skip_ws r with
          | String "}"%char r' => Some (Object [], r')
          | _ => parse_members fuel r []
          end
      | String "["%char r =>
          match skip_ws r with
          | String "]"%char r' => Some (Array [], r')
          | _ => parse_items fuel r []
          end
      | String c r =>
          if Ascii.eqb c quote then
            match parse_string r with
            | Some (str, r') => Some (Str str, r')
            | None => None
            end
          else parse_literal (String c r)
      | EmptyString => None
      end
  end
with parse_items (fuel : nat) (s : string) (acc : list value) {struct fuel}
  : option (value * string) :=
  match fuel with
  | O => None
  | S fuel =>
      match parse_value fuel s with
      | Some (v, r) =>
          match skip_ws r with
          | String ","%char r' => parse_items fuel r' (v :: acc)
          | String "]"%char r' => Some (Array (rev (v :: acc)), r')
          | _ => None
          end
      | None => None
      end
  end
with parse_members (fuel : nat) (s : string) (acc : list (string * value))
  {struct fuel} : option (value * string) :=
  match fuel with
  | O => None
  | S fuel =>
      match skip_ws s with
      | String c r =>
          if Ascii.eqb c quote then
            match parse_string r with
            | Some (key, r1) =>
                match skip_ws r1 with
                | String ":"%char r2 =>
                    match parse_value fuel r2 with
                    | Some (v, r3) =>
                        match skip_ws r3 with
                        | String ","%char r4 =>
                            parse_members fuel r4 ((key, v) :: acc)
                        | String "}"%char r4 =>
                            Some (Object (rev ((key, v) :: acc)), r4)
                        | _ => None
                        end
                    | None => None
                    end
                | _ => None
                end
            | None => None
            end
          else None
      | EmptyString => None
      end
  end.

(** [json.loads]: one value, nothing but white space after it. *)
Definition loads (s : string) : result value :=
  match parse_value (2 * String.length s + 2) s with
  | Some (v, rest) =>
      match skip_ws rest with
      | EmptyString => Ok v
      | String _ _ => Raise JSONDecodeError
      end
  | None => Raise JSONDecodeError
  end.

(** Python truthiness of a decoded value.  A lexeme without fraction and
    exponent decodes to an [int], any other to the nearest [float]; either
    is false exactly when it is zero.  The float nearest to [m * 10^(-k)]
    is zero when [m] is, or when the number is at most [2^(-1075)], half
    the smallest positive float. *)
Definition digit_value (c : ascii) : Z := (Z.of_nat (nat_of_ascii c) - 48)%Z.

Fixpoint digits_value (s : string) (acc : Z) : Z :=
  match s with
  | String c r => digits_value r (10 * acc + digit_value c)%Z
  | EmptyString => acc
  end.

(** The integer the mantissa digits of a lexeme spell, the number of them
    after the point, and what follows the exponent mark. *)
Fixpoint mantissa (lexeme : string) (m f : Z) (in_frac : bool)
  : Z * Z * option string :=
  match lexeme with
  | EmptyString => (m, f, None)
  | String c r =>
      if is_digit c
      then mantissa r (10 * m + digit_value c)%Z
                    (if in_frac then f + 1 else f)%Z in_frac
      else if Ascii.eqb c "."%char then mantissa r m f true
      else if Ascii.eqb c "-"%char then mantissa r m f in_frac
      else (m, f, Some r)
  end.

Definition exponent (s : string) : Z :=
  match s with
  | String "-"%char r => (- digits_value r 0)%Z
  | String "+"%char r => digits_value r 0
  | _ => digits_value s 0
  end.

Definition number_is_zero (lexeme : string) : bool :=
  let '(m, f, expo) := mantissa lexeme 0 0 false in
  (m =? 0)%Z ||
  match expo with
  | None => (0 <? f)%Z && (m * 2 ^ 1075 <=? 10 ^ f)%Z
  | Some e =>
      let k := (f - exponent e)%Z in
      (0 <? k)%Z && (m * 2 ^ 1075 <=? 10 ^ k)%Z
  end.

Definition truthy (v : value) : bool :=
  match v with
  | Null => false
  | Bool b => b
  | Number lexeme => negb (number_is_zero lexeme)
  | Str s => negb (String.eqb s "")
  | Array items => match items with [] => false | _ :: _ => true end
  | Object members => match members with [] => false | _ :: _ => true end
  end.

End Json.

(** *** The router *)

Module AIRouter.

(** [re.search(r'\{.*\}', text, re.DOTALL)]: the match starts at the first
    opening brace and, [.*] being greedy, ends at the last closing brace
    after it; there is no match when no closing brace follows. *)
Fixpoint from_first_open (s : string) : option string :=
  match s with
  | EmptyString => None
  | String c r => if Ascii.eqb c "{"%char then Some r else from_first_open r
  end.

(** The longest prefix of [s] that ends in a closing brace. *)
Fixpoint upto_last_close (s : string) : option string :=
  match s with
  | EmptyString => None
  | String c r =>
      match upto_last_close r with
      | Some m => Some (String c m)
      | None => if Ascii.eqb c "}"%char then Some (String c "") else None
      end
  end.

Definition search_braces (text : string) : option string :=
  match from_first_open text with
  | Some r =>
      match upto_last_close r with
      | Some m => Some (String "{"%char m)
      | None => None
      end
  | None => None
  end.


(** [s] holds a closing brace. *)
Definition has_close (s : string) : Prop :=
  exists b c : string, s = b +:+ "}" +:+ c.

(** [text[:n]] *)
Definition prefix_of (n : nat) (text : string) : string := substring 0 n text.

Definition summary_of (storytelling editing cinematography musicIntegration
                       verdict : string) : Json.value :=
  Json.Object
    [ ("summary",
       Json.Object
         [ ("storytelling", Json.Str storytelling);
           ("editing", Json.Str editing);
           ("cinematography", Json.Str cinematography);
           ("musicIntegration", Json.Str musicIntegration);
           ("verdict", Json.Str verdict) ]);
      ("timeline", Json.Array []) ].

Definition _parse_gemini_response (text : string) : result Json.value :=
  match search_braces text with
  | Some json_match => Json.loads json_match
  | None =>
      Ok (summary_of (prefix_of 200 text) "See full analysis"
                     "See full analysis" "See full analysis"
                     "Analysis completed")
  end.

Definition _parse_local_response (text : string) : result Json.value :=
  match search_braces text with
  | Some json_match => Json.loads json_match
  | None =>
      Ok (summary_of "Local analysis based on features"
                     "Tempo-based rhythm assessment"
                     "Technical quality assessment"
                     "Beat synchronization analysis"
                     (if String.eqb text "" then "Analysis completed"
                      else prefix_of 200 text))
  end.

(** The cloud provider ([google.generativeai]) as the router calls it. *)
Inductive file_state : Type := PROCESSING | ACTIVE | FAILED.

Record generate_response : Type := mk_generate_response {
  text : string;
  usage_metadata : option Z     (* total_token_count, when the attribute is there *)
}.

Record genai : Type := mk_genai {
  upload_file : string -> result file_state;       (* the uploaded file's state *)
  get_file : nat -> result file_state;             (* the state at the n-th poll *)
  generate_content : string -> string -> result generate_response
                                                   (* model name, prompt *)
}.

(** The local model ([llama_cpp.Llama]). *)
Record chat_completion : Type := mk_chat_completion {
  content : string;            (* response["choices"][0]["message"]["content"] *)
  total_tokens : Z             (* response["usage"]["total_tokens"] *)
}.

Record Llama : Type := mk_Llama {
  create_chat_completion :
    string -> string -> Z -> result chat_completion
                               (* system message, user message, max_tokens *)
}.

Record t : Type := mk {
  gemini_available : bool;
  local_llm_available : bool;
  local_llm : option Llama
}.

(** [__init__]: the cloud flag follows the API key and [genai.configure],
    the local flag follows the load of the model file. *)
Definition init (api_key_configured : bool) (loaded : option Llama) : t :=
  mk api_key_configured (bool_decide (is_Some loaded)) loaded.

(** What [analyze_video] returns. *)
Record analysis_response : Type := mk_response {
  analysis : Json.value;
  provider : string;
  model : string;
  tokens : Z
}.

Section WithFeatures.

(** The feature summary, and the two f-string prompt builders over it;
    routing does not look inside either. *)
Context {Features : Type}.
Context (_create_analysis_prompt : Features -> string).
Context (_create_local_analysis_prompt : Features -> string).

Definition _analyze_with_local_llm (self : t) (features : Features)
  : result analysis_response :=
  let prompt := _create_local_analysis_prompt features in
  match local_llm self with
  | None => Raise (BackendError "AttributeError")
  | Some llm =>
      response ← create_chat_completion llm
        "You are a professional film critic and cinematographer."
        prompt 2048;
      let analysis_text := content response in
      analysis ← _parse_local_response analysis_text;
      Ok (mk_response analysis "local_llm" "llama-2-7b"
                      (total_tokens response))
  end.

(** [while video_file.state.name == "PROCESSING": sleep(2); get_file(...)].
    [fuel] bounds the polls looked at; [None] is a file still processing
    after that many. *)
Fixpoint wait_while_processing (fuel : nat) (g : genai) (n : nat)
    (state : file_state) : option (result file_state) :=
  match state with
  | PROCESSING =>
      match fuel with
      | O => None
      | S fuel' =>
          match get_file g n with
          | Ok state' => wait_while_processing fuel' g (S n) state'
          | Raise e => Some (Raise e)
          end
      end
  | ACTIVE | FAILED => Some (Ok state)
  end.

(** The [try] block of [_analyze_with_gemini]: the cloud call itself. *)
Definition gemini_call (fuel : nat) (g : genai) (video_path : string)
    (features : Features) : option (result analysis_response) :=
  match upload_file g video_path with
  | Raise e => Some (Raise e)
  | Ok state0 =>
      match wait_while_processing fuel g 0 state0 with
      | None => None
      | Some (Raise e) => Some (Raise e)
      | Some (Ok FAILED) =>
          Some (Raise (Exception "Gemini video processing failed"))
      | Some (Ok _) =>
          let prompt := _create_analysis_prompt features in
          Some (response ← generate_content g "gemini-1.5-flash" prompt;
                analysis ← _parse_gemini_response (text response);
                Ok (mk_response analysis "gemini" "gemini-1.5-flash"
                                (default 0%Z (usage_metadata response))))
      end
  end.

(** The [except] clause: fall back to the local model when it is there,
    otherwise re-raise. *)
Definition _analyze_with_gemini (fuel : nat) (self : t) (g : genai)
    (video_path : string) (features : Features)
  : option (result analysis_response) :=
  match gemini_call fuel g video_path features with
  | None => None
  | Some (Ok r) => Some (Ok r)
  | Some (Raise e) =>
      if local_llm_available self
      then Some (_analyze_with_local_llm self features)
      else Some (Raise e)
  end.

Definition analyze_video (fuel : nat) (self : t) (g : genai)
    (video_path : string) (features : Features) (force_local : bool)
  : option (result analysis_response) :=
  if force_local || negb (gemini_available self) then
    if local_llm_available self
    then Some (_analyze_with_local_llm self features)
    else Some (Raise (Exception "No AI provider available"))
  else _analyze_with_gemini fuel self g video_path features.

End WithFeatures.

(** [text] holds an opening brace. *)
Definition has_open (s : string) : Prop :=
  exists a r : string, s = a +:+ "{" +:+ r.

Definition health_check (self : t) : bool * bool :=
  (gemini_available self, local_llm_available self).

(** What [chat] returns. *)
Record chat_response : Type := mk_chat_response {
  chat_text : string;
  chat_provider : string;
  chat_tokens : Z
}.

Definition newline : string := String "010"%char "".

Section WithJsonDumps.

(** [json.dumps(context, indent=2)], as the library renders it. *)
Context (json_dumps : Json.value -> string).

(** [if context:] on the optional context of a chat. *)
Definition context_given (context : option Json.value) : bool :=
  match context with
  | Some v => Json.truthy v
  | None => false
  end.

Definition _chat_gemini (g : genai) (message : string)
    (context : option Json.value) : result chat_response :=
  let full_message :=
    match context with
    | Some v =>
        if Json.truthy v
        then "Context: " +:+ json_dumps v +:+ newline +:+ newline +:+
             "User: " +:+ message
        else message
    | None => message
    end in
  response ← generate_content g "gemini-1.5-flash" full_message;
  Ok (mk_chat_response (text response) "gemini"
                       (default 0%Z (usage_metadata response))).

Definition _chat_local (self : t) (message : string)
    (context : option Json.value) : result chat_response :=
  match local_llm self with
  | None => Raise (BackendError "AttributeError")
  | Some llm =>
      response ← create_chat_completion llm
        "You are a helpful creative director assistant." message 512;
      Ok (mk_chat_response (content response) "local_llm"
                           (total_tokens response))
  end.

Definition chat (self : t) (g : genai) (message : string)
    (context : option Json.value) (use_local : bool)
  : result chat_response :=
  if use_local && local_llm_available self
  then _chat_local self message context
  else if gemini_available self
  then _chat_gemini g message context
  else Raise (Exception "No AI provider available for chat").

End WithJsonDumps.

Section WithImages.

(** The images the Imagen model returns ([response.images]), each with its
    PIL image. *)
Context {Image : Type}.

Record imagen : Type := mk_imagen {
  generate_images : string -> string -> Z -> string -> result (list Image)
                    (* model name, prompt, number_of_images, aspect_ratio *)
}.

Record image_response : Type := mk_image_response {
  image : Image;
  image_provider : string
}.

Definition generate_image (self : t) (im : imagen) (prompt aspect_ratio : string)
    (use_local : bool) : result image_response :=
  if negb (gemini_available self)
  then Raise (Exception "Image generation requires Gemini API")
  else
    images ← generate_images im "imagen-3.0-generate-001" prompt 1
                             aspect_ratio;
    match images with
    | first :: _ => Ok (mk_image_response first "gemini_imagen")
    | [] => Raise (BackendError "IndexError")      (* response.images[0] *)
    end.

End WithImages.

Arguments imagen : clear implicits.
Arguments image_response : clear implicits.

End AIRouter.

(** ** video_processor.py *)

Module VideoProcessor.

(** [str(n)] for an integer. *)
Definition str (n : Z) : string := NilZero.string_of_int (Z.to_int n).

(** [range(start, stop, step)]. *)
Definition range_len (start stop step : Z) : nat :=
  if (0 <? step)%Z && (start <? stop)%Z
  then Z.to_nat ((stop - start - 1) / step + 1)
  else if (step <? 0)%Z && (stop <? start)%Z
  then Z.to_nat ((start - stop - 1) / (- step) + 1)
  else 0%nat.

Definition py_range (start stop step : Z) : result (list Z) :=
  if (step =? 0)%Z then Raise (ValueError "range() arg 3 must not be zero")
  else Ok (map (fun k => (start + Z.of_nat k * step)%Z)
               (seq 0 (range_len start stop step))).

(** [np.mean] over the pixels of an image. *)
Definition np_mean (pixels : list Z) : Qc :=
  Z2Qc (foldr Z.add 0%Z pixels) / Z2Qc (Z.of_nat (length pixels)).

(** [cv2.absdiff] of two grayscale images; OpenCV refuses images of
    different sizes. *)
Definition absdiff (a b : list Z) : result (list Z) :=
  if (length a =? length b)%nat
  then Ok (zip_with (fun x y => Z.abs (x - y)) a b)
  else Raise (BackendError "cv2.error: sizes of input arguments do not match").

Record metadata : Type := mk_metadata {
  fps : Qc;
  frame_count : Z;
  width : Z;
  height : Z;
  duration : Qc;
  aspect_ratio : string
}.

Record frame_sample : Type := mk_sample {
  s_frame_index : Z;
  s_timestamp : Qc;
  brightness : Qc;
  motion_blur : Qc;
  resolution : string
}.

Record scene_cut : Type := mk_scene {
  frame_index : Z;
  timestamp : Qc;
  intensity : Qc
}.

Record audio_profile : Type := mk_audio {
  tempo : Qc;
  beat_count : Z;
  avg_spectral_centroid : Qc;
  zero_crossing_rate : Qc;
  avg_energy : Qc;
  audio_duration : Qc
}.

(** The ["audio"] entry: the profile, or [{"error": str(e)}]. *)
Inductive audio_features : Type :=
| Audio (p : audio_profile)
| AudioError (e : exn).

(** The dictionary [_extract_features_sync] returns; ["frames"] and
    ["audio"] are there only when asked for. *)
Record features : Type := mk_features {
  f_metadata : metadata;
  f_frames : option (list frame_sample);
  f_scenes : list scene_cut;
  f_audio : option audio_features
}.

Definition scene_threshold : Qc := Z2Qc 30.

(** The mean absolute difference of two grayscale images. *)
Definition mean_abs_diff (a b : list Z) : Qc :=
  np_mean (zip_with (fun x y => Z.abs (x - y)) a b).

(** Frame [i] of a sequence of grayscale images is a cut: it has a
    predecessor, and differs from it by more than the threshold on average. *)
Definition is_cut (grays : list (list Z)) (i : nat) : bool :=
  match i with
  | O => false
  | S j =>
      match grays !! j, grays !! i with
      | Some prev, Some gray =>
          bool_decide (scene_threshold < mean_abs_diff prev gray)
      | _, _ => false
      end
  end.

(** The cut recorded at frame [i]. *)
Definition cut_at (fps : Qc) (grays : list (list Z)) (i : nat) : scene_cut :=
  mk_scene (Z.of_nat i) (Z2Qc (Z.of_nat i) / fps)
           (mean_abs_diff (default [] (grays !! (i - 1)%nat))
                          (default [] (grays !! i))).

(** The positions of the cuts of a sequence, in order. *)
Definition cut_positions (grays : list (list Z)) : list nat :=
  List.filter (is_cut grays) (seq 0 (length grays)).

Definition has_cut (grays : list (list Z)) : bool :=
  match cut_positions grays with [] => false | _ :: _ => true end.

(** What a scan over images with cuts at [positions] comes to, starting
    from the cuts [scenes]: each cut needs its timestamp, a division by
    [fps]. *)
Definition scan_outcome (fps : Qc) (grays : list (list Z))
    (positions : list nat) (scenes : list scene_cut)
  : result (list scene_cut) :=
  match positions with
  | [] => Ok scenes
  | _ :: _ =>
      if bool_decide (fps = 0) then Raise ZeroDivisionError
      else Ok (scenes ++ (cut_at fps grays <$> positions))%list
  end.

(** All images of a sequence have the same number of pixels. *)
Definition same_shape (grays : list (list Z)) : Prop :=
  forall g1 g2 : list Z, g1 ∈ grays -> g2 ∈ grays -> length g1 = length g2.

Section WithOpenCV.

(** A decoded BGR frame, its grayscale image as the flat list of its
    luma values (0..255), and the variance of the Laplacian of a
    grayscale image: [cv2.cvtColor(frame, COLOR_BGR2GRAY)] and
    [cv2.Laplacian(gray, CV_64F).var()]. *)
Context {Frame : Type}.
Context (cvtColor_BGR2GRAY : Frame -> list Z).
Context (Laplacian_var : list Z -> Qc).

(** [cv2.VideoCapture(video_path)]: the container's properties, what
    [set(CAP_PROP_POS_FRAMES, idx); read()] decodes at an index, and the
    frames successive [read()] calls decode before the first failure. *)
Record VideoCapture : Type := mk_capture {
  isOpened : bool;
  CAP_PROP_FPS : Qc;
  CAP_PROP_FRAME_COUNT : Z;
  CAP_PROP_FRAME_WIDTH : Z;
  CAP_PROP_FRAME_HEIGHT : Z;
  read_at : Z -> option Frame;
  read_all : list Frame
}.

(** Whether the frame at [idx] decodes after a seek, and whether frame
    sampling, when asked for, comes across a frame that does. *)
Definition decodes (cap : VideoCapture) (idx : Z) : bool :=
  match read_at cap idx with Some _ => true | None => false end.

Definition sampling_decodes (cap : VideoCapture) (sample_frames : bool)
    (frame_interval : Z) : bool :=
  sample_frames &&
  match py_range 0 (CAP_PROP_FRAME_COUNT cap) frame_interval with
  | Ok frame_indices => existsb (decodes cap) frame_indices
  | Raise _ => false
  end.

Definition _estimate_motion_blur (frame : Frame) : Qc :=
  let gray := cvtColor_BGR2GRAY frame in
  Laplacian_var gray.

(** One iteration of the [while] loop of [_detect_scenes], on the frame
    just read: the cuts so far, extended when the frame differs enough
    from the previous one. *)
Definition scene_step (fps : Qc) (prev_frame : option (list Z))
    (gray : list Z) (frame_idx : Z) (scenes : list scene_cut)
  : result (list scene_cut) :=
  match prev_frame with
  | Some prev =>
      diff ← absdiff prev gray;
      let mean_diff := np_mean diff in
      if bool_decide (scene_threshold < mean_diff) then
        ts ← py_div (Z2Qc frame_idx) fps;
        Ok (scenes ++ [mk_scene frame_idx ts mean_diff])%list
      else Ok scenes
  | None => Ok scenes
  end.

Fixpoint scan_frames (fps : Qc) (frames : list Frame)
    (prev_frame : option (list Z)) (frame_idx : Z)
    (scenes : list scene_cut) : result (list scene_cut) :=
  match frames with
  | [] => Ok scenes
  | frame :: rest =>
      let gray := cvtColor_BGR2GRAY frame in
      scenes' ← scene_step fps prev_frame gray frame_idx scenes;
      scan_frames fps rest (Some gray) (frame_idx + 1) scenes'
  end.

Definition _detect_scenes (cap : VideoCapture) (fps : Qc)
  : result (list scene_cut) :=
  if isOpened cap then scan_frames fps (read_all cap) None 0 []
  else Ok [].

(** The [for idx in frame_indices] loop of [_extract_features_sync]. *)
Fixpoint sample_loop (cap : VideoCapture) (fps : Qc) (width height : Z)
    (frame_indices : list Z) (frames : list frame_sample)
  : result (list frame_sample) :=
  match frame_indices with
  | [] => Ok frames
  | idx :: rest =>
      match read_at cap idx with
      | Some frame =>
          let brightness := np_mean (cvtColor_BGR2GRAY frame) in
          let motion_blur := _estimate_motion_blur frame in
          ts ← py_div (Z2Qc idx) fps;
          sample_loop cap fps width height rest
            (frames ++ [mk_sample idx ts brightness motion_blur
                                  (str width +:+ "x" +:+ str height)])%list
      | None => sample_loop cap fps width height rest frames
      end
  end.

(** [duration = frame_count / fps if fps > 0 else 0] *)
Definition duration_of (frame_count : Z) (fps : Qc) : result Qc :=
  if bool_decide (0 < fps) then py_div (Z2Qc frame_count) fps else Ok 0.

Definition extract_metadata (cap : VideoCapture) : result metadata :=
  let fps := CAP_PROP_FPS cap in
  let frame_count := CAP_PROP_FRAME_COUNT cap in
  let width := CAP_PROP_FRAME_WIDTH cap in
  let height := CAP_PROP_FRAME_HEIGHT cap in
  duration ← duration_of frame_count fps;
  Ok (mk_metadata fps frame_count width height duration
                  (str width +:+ ":" +:+ str height)).

(** [_extract_audio_features]: whatever ffmpeg and librosa raise is
    caught and turned into the error marker. *)
Definition _extract_audio_features (librosa : result audio_profile)
  : audio_features :=
  match librosa with
  | Ok p => Audio p
  | Raise e => AudioError e
  end.

Definition _extract_features_sync (cap : VideoCapture)
    (librosa : result audio_profile)
    (extract_audio sample_frames : bool) (frame_interval : Z)
  : result features :=
  if negb (isOpened cap) then Raise (ValueError "Cannot open video")
  else
    meta ← extract_metadata cap;
    frames ←
      (if sample_frames then
         frame_indices ← py_range 0 (frame_count meta) frame_interval;
         sampled ← sample_loop cap (fps meta) (width meta) (height meta)
                               frame_indices [];
         Ok (Some sampled)
       else Ok None);
    scenes ← _detect_scenes cap (fps meta);
    let audio :=
      if extract_audio then Some (_extract_audio_features librosa)
      else None in
    Ok (mk_features meta frames scenes audio).

End WithOpenCV.

(** [int(x)] on a float: truncation towards zero. *)
Definition py_int (x : Qc) : Z := (Qnum x ÷ Zpos (Qden x))%Z.

(** The dictionary [_preprocess_sync] returns; the two ["compressed_..."]
    entries are there only after a compression. *)
Record preprocess_result : Type := mk_preprocess_result {
  original_size_mb : Qc;
  compressed : bool;
  thumbnail : option string;
  compressed_size_mb : option Qc;
  compressed_path : option string
}.

(** What the file system and ffmpeg answer for one input file: its size in
    bytes, the path [with_stem] derives for the compressed copy, the
    duration [ffmpeg.probe] reports, the outcome of the ffmpeg run towards
    an output path at a video bitrate, and the size of that output. *)
Record media_tools : Type := mk_media_tools {
  st_size : result Z;
  with_stem_compressed : string;
  probe_duration : result Qc;
  ffmpeg_run : string -> string -> result unit;
  compressed_st_size : result Z
}.

Section WithThumbnails.

(** [cv2.resize(frame, (320, 180))], [cv2.imencode('.jpg', ...)] and
    [base64.b64encode(...).decode('utf-8')] on the first frame. *)
Context {Frame : Type}.
Context (jpeg_base64 : Frame -> result string).

Definition _preprocess_sync (tools : media_tools)
    (cap : VideoCapture (Frame := Frame)) (compress : bool) (max_size_mb : Z)
  : result preprocess_result :=
  bytes ← st_size tools;
  let size_mb := Z2Qc bytes / Z2Qc (1024 * 1024) in
  compression ←
    (if compress && bool_decide (Z2Qc max_size_mb < size_mb) then
       let output_path := with_stem_compressed tools in
       duration ← probe_duration tools;
       ratio ← py_div (Z2Qc (max_size_mb * 8 * 1024)) duration;
       let target_bitrate := py_int ratio in
       ffmpeg_run tools output_path (str target_bitrate +:+ "k") ;;
       out_bytes ← compressed_st_size tools;
       let compressed_size := Z2Qc out_bytes / Z2Qc (1024 * 1024) in
       Ok (Some (compressed_size, output_path))
     else Ok None);
  thumbnail ←
    match (if isOpened cap then head (read_all cap) else None) with
    | Some frame => encoded ← jpeg_base64 frame; Ok (Some encoded)
    | None => Ok None
    end;
  Ok (mk_preprocess_result size_mb
        (match compression with Some _ => true | None => false end)
        thumbnail (fst <$> compression) (snd <$> compression)).

End WithThumbnails.

End VideoProcessor.

(** ** main.py *)

Module Main.

(** What a request handler comes to: the value it returns, or the
    [HTTPException] it raises, whose detail is the text of the exception
    caught. *)
Inductive http (A : Type) : Type :=
| Response (a : A)
| HTTPException (status_code : Z) (detail : exn).
Arguments Response {A} a.
Arguments HTTPException {A} status_code detail.

(** A decoded JSON value as a Python object in the cache: [null] is
    [None]. *)
Definition to_python (v : Json.value) : option Json.value :=
  match v with
  | Json.Null => None
  | _ => Some v
  end.

(** [if cached:] *)
Definition truthy (cached : option Json.value) : bool :=
  match cached with
  | Some v => Json.truthy v
  | None => false
  end.

(** [len(local_features.get("frames", []))] and the like. *)
Record feature_counts : Type := mk_feature_counts {
  audio_analyzed : bool;
  frames_sampled : nat;
  scenes_detected : nat
}.

Inductive analyze_response : Type :=
| CachedAnalysis (analysis : Json.value)     (* "cached": True, "cost_saved": 2.50 *)
| FreshAnalysis (analysis : Json.value) (provider : string) (cost : Qc)
                (features : feature_counts). (* "cached": False *)

Record chat_request : Type := mk_chat_request {
  message : string;
  analysis_id : option string;
  use_local : bool
}.

Record chat_reply : Type := mk_chat_reply {
  reply_message : string;
  reply_provider : string;
  reply_cost : Qc
}.

Record image_request : Type := mk_image_request {
  prompt : string;
  aspect_ratio : string;
  image_use_local : bool
}.

Section WithBackends.

(** The libraries behind the services: OpenCV's grayscale conversion and
    Laplacian variance, the two prompt builders of the router over a
    feature summary, [hashlib.sha256(...).hexdigest()] and
    [json.dumps(..., indent=2)]. *)
Context {Frame Image : Type}.
Context (cvtColor_BGR2GRAY : Frame -> list Z).
Context (Laplacian_var : list Z -> Qc).
Context (_create_analysis_prompt : VideoProcessor.features -> string).
Context (_create_local_analysis_prompt : VideoProcessor.features -> string).
Context (sha256_hexdigest : string -> string).
Context (json_dumps : Json.value -> string).

(** The module-level service objects. *)
Record services : Type := mk_services {
  cache_manager : CacheManager.t Json.value;
  ai_router : AIRouter.t;
  cost_tracker : CostTracker.world
}.

(** What the surroundings decide during one request: the store and the
    clock at the cache read and at the cache write, the ledger file, the
    two model back ends and the number of polls looked at. *)
Record surroundings : Type := mk_surroundings {
  at_get : CacheManager.env;
  at_set : CacheManager.env;
  ledger : CostTracker.env;
  cloud : AIRouter.genai;
  image_model : AIRouter.imagen Image;
  polls : nat
}.

(** An uploaded file: its bytes, whether the temporary copy could be
    written, its path, and what OpenCV, ffmpeg and librosa find in it. *)
Record upload : Type := mk_upload {
  content : string;
  write_bytes_ok : bool;
  temp_path : string;
  capture : VideoProcessor.VideoCapture (Frame := Frame);
  librosa : result VideoProcessor.audio_profile
}.

(** [analyze_video] after the cache check: feature extraction, routing,
    cost tracking, caching. *)
Definition analyze_uncached (sur : surroundings) (file : upload)
    (cache_key : string) (force_local : bool) (sv : services)
  : option (http analyze_response * services) :=
  match VideoProcessor._extract_features_sync cvtColor_BGR2GRAY Laplacian_var
          (capture file) (librosa file) true true 30 with
  | Raise e => Some (HTTPException 500 e, sv)
  | Ok local_features =>
      match AIRouter.analyze_video _create_analysis_prompt
              _create_local_analysis_prompt (polls sur) (ai_router sv)
              (cloud sur) (temp_path file) local_features force_local with
      | None => None
      | Some (Raise e) => Some (HTTPException 500 e, sv)
      | Some (Ok analysis_result) =>
          match CostTracker.record_analysis (ledger sur)
                  (AIRouter.provider analysis_result)
                  (AIRouter.model analysis_result)
                  (AIRouter.tokens analysis_result) (cost_tracker sv) with
          | (Raise e, tracker) =>
              Some (HTTPException 500 e,
                    mk_services (cache_manager sv) (ai_router sv) tracker)
          | (Ok cost, tracker) =>
              let '(_, manager) :=
                CacheManager.set (at_set sur) cache_key
                  (to_python (AIRouter.analysis analysis_result))
                  (Some (86400 * 7)%Z) (cache_manager sv) in
              Some (Response
                      (FreshAnalysis (AIRouter.analysis analysis_result)
                         (AIRouter.provider analysis_result) cost
                         (mk_feature_counts
                            (match VideoProcessor.f_audio local_features with
                             | Some _ => true
                             | None => false
                             end)
                            (length (default []
                               (VideoProcessor.f_frames local_features)))
                            (length
                               (VideoProcessor.f_scenes local_features)))),
                    mk_services manager (ai_router sv) tracker)
          end
      end
  end.

(** [POST /api/analyze].  [None] is a request still waiting for the cloud
    after the polls looked at.  The removal of the temporary file is handed
    to a background task and is not part of the services' state. *)
Definition analyze_video (sur : surroundings) (file : upload)
    (use_cache force_local : bool) (sv : services)
  : option (http analyze_response * services) :=
  if negb (write_bytes_ok file) then Some (HTTPException 500 OSError, sv)
  else
    let video_hash := sha256_hexdigest (content file) in
    let cache_key := "analysis:" +:+ video_hash in
    if use_cache then
      let '(cached, manager) :=
        CacheManager.get (at_get sur) cache_key (cache_manager sv) in
      let sv' := mk_services manager (ai_router sv) (cost_tracker sv) in
      match cached with
      | Some hit =>
          if truthy cached then
            match CostTracker.record_cache_hit (ledger sur) "analysis"
                    (cost_tracker sv) with
            | (Ok _, tracker) =>
                Some (Response (CachedAnalysis hit),
                      mk_services manager (ai_router sv) tracker)
            | (Raise e, tracker) =>
                Some (HTTPException 500 e,
                      mk_services manager (ai_router sv) tracker)
            end
          else analyze_uncached sur file cache_key force_local sv'
      | None => analyze_uncached sur file cache_key force_local sv'
      end
    else analyze_uncached sur file cache_key force_local sv.

(** [POST /api/chat] *)
Definition chat (sur : surroundings) (request : chat_request) (sv : services)
  : http chat_reply * services :=
  let '(context, manager) :=
    match analysis_id request with
    | Some id =>
        if negb (String.eqb id "")
        then CacheManager.get (at_get sur) ("analysis:" +:+ id)
                              (cache_manager sv)
        else (None, cache_manager sv)
    | None => (None, cache_manager sv)
    end in
  match AIRouter.chat json_dumps (ai_router sv) (cloud sur) (message request)
                      context (use_local request) with
  | Raise e =>
      (HTTPException 500 e,
       mk_services manager (ai_router sv) (cost_tracker sv))
  | Ok response =>
      match CostTracker.record_chat (ledger sur)
              (AIRouter.chat_provider response)
              (AIRouter.chat_tokens response) (cost_tracker sv) with
      | (Raise e, tracker) =>
          (HTTPException 500 e, mk_services manager (ai_router sv) tracker)
      | (Ok cost, tracker) =>
          (Response (mk_chat_reply (AIRouter.chat_text response)
                                   (AIRouter.chat_provider response) cost),
           mk_services manager (ai_router sv) tracker)
      end
  end.

(** [POST /api/generate-image]: the image, its provider and its cost. *)
Definition generate_image (sur : surroundings) (request : image_request)
    (sv : services) : http (Image * string * Qc) * services :=
  match AIRouter.generate_image (ai_router sv) (image_model sur)
          (prompt request) (aspect_ratio request)
          (image_use_local request) with
  | Raise e => (HTTPException 500 e, sv)
  | Ok result =>
      match CostTracker.record_image_generation (ledger sur)
              (AIRouter.image_provider result) "imagen-3.0-generate-001"
              (cost_tracker sv) with
      | (Raise e, tracker) =>
          (HTTPException 500 e,
           mk_services (cache_manager sv) (ai_router sv) tracker)
      | (Ok cost, tracker) =>
          (Response (AIRouter.image result, AIRouter.image_provider result,
                     cost),
           mk_services (cache_manager sv) (ai_router sv) tracker)
      end
  end.

End WithBackends.

Arguments services : clear implicits.
Arguments surroundings : clear implicits.
Arguments upload : clear implicits.

End Main.

(** ** Sample surroundings

    Concrete back ends and clips on which the properties below are run. *)

(** A cloud file that turns FAILED at the third poll, and a local model
    that answers in prose. *)
Definition failing_cloud : AIRouter.genai :=
  AIRouter.mk_genai
    (fun _ => Ok AIRouter.PROCESSING)
    (fun n => Ok (if (n <? 2)%nat then AIRouter.PROCESSING
                  else AIRouter.FAILED))
    (fun _ _ => Raise (BackendError "no content for a failed file")).

Definition prose_llama : AIRouter.Llama :=
  AIRouter.mk_Llama
    (fun _ _ _ => Ok (AIRouter.mk_chat_completion "Competent but flat." 42)).

(** Frames given directly by their luma values: the grayscale conversion
    is the identity and the Laplacian variance is not looked at. *)
Definition luma (frame : list Z) : list Z := frame.

Definition flat_variance (gray : list Z) : Qc := 0.

Definition dark_frame : list Z := [0; 0; 0; 0]%Z.
Definition grey_frame : list Z := [50; 50; 50; 50]%Z.

Definition seek_into (frames : list (list Z)) (idx : Z) : option (list Z) :=
  if (idx <? 0)%Z then None else frames !! Z.to_nat idx.

(** Two frames at 30 fps, the second 50 brighter everywhere. *)
Definition two_frame_clip : VideoProcessor.VideoCapture :=
  VideoProcessor.mk_capture true (Z2Qc 30) 2 2 2
    (seek_into [dark_frame; grey_frame]) [dark_frame; grey_frame].

(** One frame, and a frame rate the container reports as 0. *)
Definition still_clip : VideoProcessor.VideoCapture :=
  VideoProcessor.mk_capture true 0 1 2 2
    (seek_into [grey_frame]) [grey_frame].

(** Two equal frames behind a header that reports neither a frame rate nor
    a frame count. *)
Definition headerless_clip : VideoProcessor.VideoCapture :=
  VideoProcessor.mk_capture true 0 0 2 2
    (seek_into [grey_frame; grey_frame]) [grey_frame; grey_frame].

(** A hundred-frame header at 25 fps. *)
Definition header_clip : VideoProcessor.VideoCapture :=
  VideoProcessor.mk_capture true (Z2Qc 25) 100 2 2
    (seek_into [dark_frame]) [dark_frame].

Definition silent_audio : result VideoProcessor.audio_profile :=
  Raise (BackendError "ffmpeg: no audio stream").

(** A cloud file that never leaves PROCESSING, and a cloud that answers a
    chat in seventeen tokens. *)
Definition stuck_cloud : AIRouter.genai :=
  AIRouter.mk_genai
    (fun _ => Ok AIRouter.PROCESSING)
    (fun _ => Ok AIRouter.PROCESSING)
    (fun _ _ => Raise (BackendError "no content for a pending file")).

Definition chatty_cloud : AIRouter.genai :=
  AIRouter.mk_genai
    (fun _ => Ok AIRouter.ACTIVE)
    (fun _ => Ok AIRouter.ACTIVE)
    (fun _ _ => Ok (AIRouter.mk_generate_response "Cut on the beat."
                                                  (Some 17%Z))).

(** An image model that returns one picture, named by its file. *)
Definition one_picture : AIRouter.imagen string :=
  AIRouter.mk_imagen (fun _ _ _ _ => Ok ["storyboard.png"]).

(** An upload of exactly 50 MB on a machine without ffmpeg, and one of
    100 MB whose container reports a duration of 0. *)
Definition at_the_limit : VideoProcessor.media_tools :=
  VideoProcessor.mk_media_tools
    (Ok 52428800%Z) "/tmp/clip_compressed.mp4"
    (Raise (BackendError "ffprobe: not found"))
    (fun _ _ => Raise (BackendError "ffmpeg: not found"))
    (Raise OSError).

Definition zero_length : VideoProcessor.media_tools :=
  VideoProcessor.mk_media_tools
    (Ok 104857600%Z) "/tmp/clip_compressed.mp4"
    (Ok 0)
    (fun _ _ => Ok tt)
    (Ok 1048576%Z).

(** A thumbnail encoder that answers with the start of a JPEG. *)
Definition jpeg_stub (frame : list Z) : result string := Ok "/9j/4AAQSkZJRg==".

(** Requests against the handlers: the uploaded bytes stand for their own
    digest, JSON is rendered as an empty object, and prompts are fixed. *)
Definition digest (content : string) : string := content.

Definition render (v : Json.value) : string := "{}".

Definition fixed_prompt (features : VideoProcessor.features) : string :=
  "Analyze this music video.".

Definition clip_upload : Main.upload (list Z) :=
  Main.mk_upload "clip" true "/tmp/cinecritique_0_clip.mp4"
                 two_frame_clip silent_audio.

Definition quiet_hour : Main.surroundings string :=
  Main.mk_surroundings
    (CacheManager.mk_env false (Z2Qc 1000) 0)
    (CacheManager.mk_env false (Z2Qc 1060) 0)
    (CostTracker.mk_env true "2025-01-01T12:00:00")
    stuck_cloud one_picture 3.

Definition next_day : Main.surroundings string :=
  Main.mk_surroundings
    (CacheManager.mk_env false (Z2Qc 87400) 0)
    (CacheManager.mk_env false (Z2Qc 87460) 0)
    (CostTracker.mk_env true "2025-01-02T12:00:00")
    stuck_cloud one_picture 3.

(** Services with only a local model, with only the cloud, and with no
    provider at all, over an empty cache and a fresh ledger; and services
    whose cache holds a critique, or an empty object, for the clip. *)
Definition local_only : Main.services :=
  Main.mk_services (CacheManager.init ∅)
                   (AIRouter.init false (Some prose_llama))
                   (CostTracker.init None).

Definition cloud_only : Main.services :=
  Main.mk_services (CacheManager.init ∅) (AIRouter.init true None)
                   (CostTracker.init None).




Definition hollow : Main.services :=
  Main.mk_services
    (CacheManager.init
       {[ "analysis:clip" :=
            CacheManager.mk_entry (Some (Json.Object [])) None ]})
    (AIRouter.init false None) (CostTracker.init None).

(** * Properties *)

(** ** Rational arithmetic *)

Ltac qc_compare := unfold Qcle, Qclt; vm_compute; congruence.
Ltac qc_equal := apply Qc_is_canon; vm_compute; reflexivity.

Lemma Z2Qc_nonneg (z : Z) : (0 <= z)%Z -> 0 <= Z2Qc z.
Proof.
  intros Hz. unfold Qcle, Z2Qc. simpl. rewrite !Qred_correct.
  unfold Qle. simpl. lia.
Qed.

Lemma Z2Qc_pos (z : Z) : (0 < z)%Z -> 0 < Z2Qc z.
Proof.
  intros Hz. unfold Qclt, Z2Qc. simpl. rewrite !Qred_correct.
  unfold Qlt. simpl. lia.
Qed.

Lemma Qcdiv_nonneg (a b : Qc) : 0 <= a -> 0 < b -> 0 <= a / b.
Proof.
  intros Ha Hb. unfold Qcdiv. apply Qcmult_nonneg_nonneg; [done|].
  apply Qclt_le_weak, Qcinv_pos, Hb.
Qed.

Lemma Qcle_plus_nonneg (a c : Qc) : 0 <= c -> a <= a + c.
Proof.
  intros Hc. rewrite <- (Qcplus_0_r a) at 1. by apply Qcplus_le_mono_l.
Qed.

(** Comparisons of [Qc] terms read as comparisons of their [Q] values. *)
Ltac qc_to_q :=
  unfold Qcle, Qclt, Qcdiv, Qcinv, Qcminus, Qcplus, Qcopp, Qcmult,
         Z2Qc, dec, Q2Qc in *;
  simpl in *; rewrite ?Qred_correct in *.




(** ** Strings *)

Lemma string_length_app (s1 s2 : string) :
  String.length (s1 +:+ s2) = (String.length s1 + String.length s2)%nat.
Proof. induction s1 as [|c s1 IH]; simpl; [done | by rewrite IH]. Qed.

(** ** The cost ledger *)

Section CostTrackerFacts.

Import CostTracker.

Lemma price_list_nonneg : Forall (fun kv => 0 <= kv.2) price_list.
Proof. repeat constructor; qc_compare. Qed.

Lemma price_nonneg (model : string) (d : Qc) :
  0 <= d -> 0 <= default d (COST_PER_1K_TOKENS !! model).
Proof.
  intros Hd.
  destruct (COST_PER_1K_TOKENS !! model) as [p|] eqn:E; simpl; [|done].
  apply elem_of_list_to_map_2 in E.
  pose proof price_list_nonneg as H. rewrite Forall_forall in H.
  apply (H (model, p)). by apply list_elem_of_In.
Qed.

Lemma analysis_cost_nonneg p m n : (0 <= n)%Z -> 0 <= analysis_cost p m n.
Proof.
  intros Hn. unfold analysis_cost.
  destruct (String.eqb p "local_llm"); [qc_compare|].
  apply Qcmult_nonneg_nonneg.
  - apply Qcdiv_nonneg; [by apply Z2Qc_nonneg | by apply Z2Qc_pos].
  - apply price_nonneg. qc_compare.
Qed.

Lemma chat_cost_nonneg p n : (0 <= n)%Z -> 0 <= chat_cost p n.
Proof.
  intros Hn. unfold chat_cost.
  destruct (String.eqb p "local_llm"); [qc_compare|].
  apply Qcmult_nonneg_nonneg.
  - apply Qcdiv_nonneg; [by apply Z2Qc_nonneg | by apply Z2Qc_pos].
  - apply price_nonneg. qc_compare.
Qed.

Lemma image_cost_nonneg m : 0 <= image_cost m.
Proof. apply price_nonneg. qc_compare. Qed.

(** The attributes after each recording call, whether or not the write
    of the file went through. *)
Lemma record_analysis_self e p m n w :
  self (record_analysis e p m n w).2 =
  add_breakdown ("analysis_" +:+ p) (analysis_cost p m n)
    (add_api_call (add_cost (analysis_cost p m n) (self w))).
Proof. unfold record_analysis, _save. cbn. by destruct (write_ok e). Qed.

Lemma record_chat_self e p n w :
  self (record_chat e p n w).2 =
  add_breakdown ("chat_" +:+ p) (chat_cost p n)
    (add_api_call (add_cost (chat_cost p n) (self w))).
Proof. unfold record_chat, _save. cbn. by destruct (write_ok e). Qed.

Lemma record_image_generation_self e p m w :
  self (record_image_generation e p m w).2 =
  add_breakdown "image_generation" (image_cost m)
    (add_api_call (add_cost (image_cost m) (self w))).
Proof.
  unfold record_image_generation, _save. cbn. by destruct (write_ok e).
Qed.

Lemma record_cache_hit_self e o w :
  self (record_cache_hit e o w).2 = add_cache_hit (self w).
Proof. unfold record_cache_hit, _save. cbn. by destruct (write_ok e). Qed.

Lemma run_call_total_cost ec w :
  nonneg_tokens ec ->
  total_cost (self w) <= total_cost (self (run_call ec w)).
Proof.
  destruct ec as [e [p m n|p n|p m|o]]; unfold nonneg_tokens; simpl;
    intros Hn.
  - rewrite record_analysis_self. simpl.
    by apply Qcle_plus_nonneg, analysis_cost_nonneg.
  - rewrite record_chat_self. simpl.
    by apply Qcle_plus_nonneg, chat_cost_nonneg.
  - rewrite record_image_generation_self. simpl.
    apply Qcle_plus_nonneg, image_cost_nonneg.
  - rewrite record_cache_hit_self. simpl. apply Qcle_refl.
Qed.

Lemma run_calls_total_cost cs w :
  Forall nonneg_tokens cs ->
  total_cost (self w) <= total_cost (self (run_calls cs w)).
Proof.
  intros H. revert w. induction H as [|ec cs Hec _ IH]; intros w; simpl.
  - apply Qcle_refl.
  - eapply Qcle_trans; [by apply run_call_total_cost | apply IH].
Qed.

Lemma run_calls_app cs1 cs2 w :
  run_calls (cs1 ++ cs2) w = run_calls cs2 (run_calls cs1 w).
Proof. apply fold_left_app. Qed.

(** C2. Over any sequence of recording calls with non-negative token
    counts, the running total after a prefix of the sequence is at most
    the total after any longer prefix (no reset in between), whether or
    not the writes of the ledger file succeed; and right after [reset],
    whatever came before, the total is 0, the breakdown is empty and both
    counters are 0. *)
Theorem total_cost_monotone_until_reset
    (w : world) (before between : list (env * call)) (e : env) :
  Forall nonneg_tokens between ->
  total_cost (self (run_calls before w)) <=
    total_cost (self (run_calls (before ++ between) w))
  /\ (let s := self (reset e (run_calls (before ++ between) w)).2 in
      total_cost s = 0 /\ breakdown s = ∅ /\
      api_calls s = 0%Z /\ cache_hits s = 0%Z).
Proof.
  intros H. split.
  - rewrite run_calls_app. by apply run_calls_total_cost.
  - unfold reset, _save. cbn. by destruct (write_ok e).
Qed.

(** The calls of the example below: a chat whose ledger write fails, an
    image, a cache hit. *)
Lemma total_cost_monotone_until_reset_witness :
  let ok := mk_env true "2025-01-01T12:00:00" in
  let failing := mk_env false "2025-01-01T12:00:05" in
  let before := [(ok, RecordAnalysis "gemini" "gemini-1.5-flash" 1200)] in
  let between :=
    [ (failing, RecordChat "gemini" 300);
      (ok, RecordImageGeneration "gemini_imagen" "imagen-3.0-generate-001");
      (ok, RecordCacheHit "analysis") ] in
  Forall nonneg_tokens between /\
  total_cost (self (run_calls before (init None))) <=
    total_cost (self (run_calls (before ++ between) (init None))) /\
  total_cost (self (reset ok (run_calls (before ++ between) (init None))).2)
    = 0.
Proof.
  cbn zeta.
  assert (H : Forall nonneg_tokens
    [ (mk_env false "2025-01-01T12:00:05", RecordChat "gemini" 300);
      (mk_env true "2025-01-01T12:00:00",
       RecordImageGeneration "gemini_imagen" "imagen-3.0-generate-001");
      (mk_env true "2025-01-01T12:00:00", RecordCacheHit "analysis") ]).
  { repeat constructor; unfold nonneg_tokens; simpl; lia. }
  split; [exact H|].
  destruct (total_cost_monotone_until_reset (init None)
    [(mk_env true "2025-01-01T12:00:00",
      RecordAnalysis "gemini" "gemini-1.5-flash" 1200)] _
    (mk_env true "2025-01-01T12:00:00") H) as [Hmono [Hzero _]].
  split; [exact Hmono | exact Hzero].
Defined.

(** C4 (as amended). A recording call whose ledger write goes through
    returns its cost, after adding it to the running total and to one
    breakdown bucket and writing the whole ledger, as it then stands, to the
    file.  The bucket is ["analysis_<provider>"] for an analysis and
    ["chat_<provider>"] for a chat; for an image generation it is the fixed
    ["image_generation"], whatever the provider. *)
Theorem record_adds_cost_and_persists (e : env) (w : world) :
  write_ok e = true ->
  (forall p m n, exists w',
      record_analysis e p m n w = (Ok (analysis_cost p m n), w') /\
      recorded e ("analysis_" +:+ p) (analysis_cost p m n) w w')
  /\ (forall p n, exists w',
      record_chat e p n w = (Ok (chat_cost p n), w') /\
      recorded e ("chat_" +:+ p) (chat_cost p n) w w')
  /\ (forall p m, exists w',
      record_image_generation e p m w = (Ok (image_cost m), w') /\
      recorded e "image_generation" (image_cost m) w w').
Proof.
  intros Hw. repeat split; intros;
    unfold record_analysis, record_chat, record_image_generation, _save;
    cbn; rewrite Hw; eexists; (split; [reflexivity|]); by repeat split.
Qed.

Lemma record_adds_cost_and_persists_witness :
  let e := mk_env true "2025-01-01T12:00:00" in
  let w := mk_world (mk (dec 1 2) {["chat_gemini" := dec 1 2]} 3 1) None in
  write_ok e = true /\
  exists w',
    record_chat e "gemini" 2000 w = (Ok (chat_cost "gemini" 2000), w') /\
    recorded e "chat_gemini" (chat_cost "gemini" 2000) w w'.
Proof.
  split; [reflexivity|].
  exact (proj1 (proj2 (record_adds_cost_and_persists
    (mk_env true "2025-01-01T12:00:00")
    (mk_world (mk (dec 1 2) {["chat_gemini" := dec 1 2]} 3 1) None)
    eq_refl)) "gemini" 2000%Z).
Defined.

Lemma bucket_name_mismatch (operation : string) :
  "image_generation" <> operation +:+ "_" +:+ "gemini_imagen".
Proof.
  intros Heq.
  destruct operation as [|a [|b [|c rest]]]; simpl in Heq; try discriminate.
  apply (f_equal String.length) in Heq. simpl in Heq.
  rewrite string_length_app in Heq. simpl in Heq. lia.
Qed.

(** C4, as stated, fails for image generation: on a fresh ledger, recording
    one image of provider ["gemini_imagen"] puts its cost 0.02 in the bucket
    ["image_generation"], and no bucket whose name ends in
    ["_gemini_imagen"] exists afterwards. *)
Lemma image_generation_bucket_has_no_provider :
  let w' := (record_image_generation (mk_env true "2025-01-01T12:00:00")
               "gemini_imagen" "imagen-3.0-generate-001" (init None)).2 in
  total_cost (self w') = dec 2 100 /\
  breakdown (self w') = {["image_generation" := dec 2 100]} /\
  (forall operation : string,
      breakdown (self w') !! (operation +:+ "_" +:+ "gemini_imagen") = None).
Proof.
  cbn zeta. rewrite record_image_generation_self.
  assert (Hc : image_cost "imagen-3.0-generate-001" = dec 2 100)
    by reflexivity.
  rewrite Hc. cbn.
  assert (H0 : 0 + dec 2 100 = dec 2 100) by apply Qcplus_0_l.
  rewrite lookup_empty. cbn. rewrite H0.
  split; [done|]. split; [done|].
  intros operation.
  rewrite lookup_insert_ne; [apply lookup_empty | apply bucket_name_mismatch].
Qed.



End CostTrackerFacts.

(** ** The cache manager *)

Section CacheManagerFacts.

Import CacheManager.

Context {V : Type}.
Implicit Types (s : CacheManager.t V) (e : env) (key : string)
               (v : option V) (ttl : option Z).

Lemma get_store_unchanged e key s : cache (get e key s).2 = cache s.
Proof.
  unfold get. destruct (store_raises e); [done|].
  by destruct (cache_get (now e) key (cache s)).
Qed.

(** A read that the store answers counts once: as a hit when an object
    comes back, as a miss otherwise. *)
Lemma get_counts_once e key s :
  store_raises e = false ->
  (get e key s).1 = cache_get (now e) key (cache s) /\
  self_stats (get e key s).2 =
    match (get e key s).1 with
    | Some _ => count_hit (self_stats s)
    | None => count_miss (self_stats s)
    end.
Proof.
  intros He. unfold get. rewrite He.
  by destruct (cache_get (now e) key (cache s)).
Qed.

(** A read on which the store raises returns [None] and counts nothing. *)
Lemma get_failure_uncounted e key s :
  store_raises e = true -> get e key s = (None, s).
Proof. intros He. unfold get. by rewrite He. Qed.

Lemma set_counts_once e key v ttl s :
  store_raises e = false ->
  (set e key v ttl s).1 = true /\
  self_stats (set e key v ttl s).2 = count_set (self_stats s).
Proof. intros He. unfold set. by rewrite He. Qed.

Lemma set_failure_uncounted e key v ttl s :
  store_raises e = true -> set e key v ttl s = (false, s).
Proof. intros He. unfold set. by rewrite He. Qed.

Lemma other_calls_keep_stats e (c : call V) s :
  match c with CallGet _ | CallSet _ _ _ => False | _ => True end ->
  self_stats (run_call e c s) = self_stats s.
Proof.
  destruct c; simpl; try done; intros _.
  - unfold delete. destruct (store_raises e); [done|].
    by destruct (cache_delete (now e) key (cache s)).
  - unfold clear_all. by destruct (store_raises e).
Qed.

(** C3 (as amended). A [get] that the backing store answers increments
    exactly one of the two read counters, the hit counter when an object is
    returned and the miss counter otherwise, and leaves the set counter
    alone; a [set] that the store accepts increments the set counter and
    nothing else.  When the store raises, [get] returns [None], [set]
    returns [False], and no counter moves.  No other call changes the
    counters. *)
Theorem counters_follow_store_outcome e s :
  (forall key,
      let '(value, s') := get e key s in
      if store_raises e
      then value = None /\ self_stats s' = self_stats s
      else match value with
           | Some _ =>
               hits (self_stats s') = (hits (self_stats s) + 1)%Z /\
               misses (self_stats s') = misses (self_stats s)
           | None =>
               hits (self_stats s') = hits (self_stats s) /\
               misses (self_stats s') = (misses (self_stats s) + 1)%Z
           end /\ sets (self_stats s') = sets (self_stats s))
  /\ (forall key v ttl,
      let '(done, s') := set e key v ttl s in
      if store_raises e
      then done = false /\ self_stats s' = self_stats s
      else done = true /\
           sets (self_stats s') = (sets (self_stats s) + 1)%Z /\
           hits (self_stats s') = hits (self_stats s) /\
           misses (self_stats s') = misses (self_stats s))
  /\ (forall c : call V,
      match c with CallGet _ | CallSet _ _ _ => False | _ => True end ->
      self_stats (run_call e c s) = self_stats s).
Proof.
  split; [|split].
  - intros key. unfold get. destruct (store_raises e); [done|].
    by destruct (cache_get (now e) key (cache s)).
  - intros key v ttl. unfold set. by destruct (store_raises e).
  - intros c Hc. by apply other_calls_keep_stats.
Qed.

(** C10. When the store accepts the write, [set] with [ttl = 0] does what
    [set] without a TTL does: the entry is stored with no expiry time, and
    a read of the key that the store answers returns the stored object
    whatever the clock says. *)
Theorem set_ttl_zero_never_expires e key v s :
  store_raises e = false ->
  set e key v (Some 0%Z) s = set e key v None s /\
  cache (set e key v (Some 0%Z) s).2 !! key = Some (mk_entry v None) /\
  (forall e', store_raises e' = false ->
              (get e' key (set e key v (Some 0%Z) s).2).1 = v).
Proof.
  intros He. split; [reflexivity|].
  unfold set. rewrite He. cbn. unfold cache_set. cbn.
  split; [apply lookup_insert_eq|].
  intros e' He'. unfold get. rewrite He'. cbn. unfold cache_get.
  rewrite lookup_insert_eq. cbn. by destruct v.
Qed.

End CacheManagerFacts.

(** C3, as stated, fails when the store raises on a read: nothing is
    returned and neither the hit nor the miss counter is incremented. *)
Lemma failed_read_counts_nothing :
  let s := CacheManager.init (V := string) ∅ in
  let e := CacheManager.mk_env true 0 0 in
  let '(value, s') := CacheManager.get e "analysis:abc" s in
  value = None /\
  CacheManager.hits (CacheManager.self_stats s') = 0%Z /\
  CacheManager.misses (CacheManager.self_stats s') = 0%Z.
Proof. by cbn. Qed.

Lemma counters_follow_store_outcome_witness :
  let s := CacheManager.init (V := string) ∅ in
  let e := CacheManager.mk_env false 0 0 in
  CacheManager.self_stats
    (CacheManager.run_call e (CacheManager.CallDelete "analysis:abc") s) =
  CacheManager.self_stats s.
Proof.
  cbn zeta.
  exact (proj2 (proj2 (counters_follow_store_outcome
    (CacheManager.mk_env false 0 0) (CacheManager.init (V := string) ∅)))
    (CacheManager.CallDelete "analysis:abc") I).
Defined.

(** A week-long clock jump after a [ttl = 0] write still reads the object. *)
Lemma set_ttl_zero_never_expires_witness :
  let s := CacheManager.init (V := string) ∅ in
  let e := CacheManager.mk_env false (Z2Qc 1000) 0 in
  let later := CacheManager.mk_env false (Z2Qc 605800) 0 in
  CacheManager.store_raises e = false /\
  (CacheManager.get later "analysis:abc"
     (CacheManager.set e "analysis:abc" (Some "critique") (Some 0%Z) s).2).1
  = Some "critique".
Proof.
  cbn zeta. split; [reflexivity|].
  exact (proj2 (proj2 (set_ttl_zero_never_expires
    (CacheManager.mk_env false (Z2Qc 1000) 0) "analysis:abc"
    (Some "critique") (CacheManager.init ∅) eq_refl))
    (CacheManager.mk_env false (Z2Qc 605800) 0) eq_refl).
Defined.

(** ** The router: response parsing *)

Section ParsingFacts.

Import AIRouter.

Lemma string_app_nil (b : string) : "" +:+ b = b.
Proof. reflexivity. Qed.

Lemma string_app_cons (x : ascii) (a b : string) :
  String x a +:+ b = String x (a +:+ b).
Proof. reflexivity. Qed.


Lemma has_close_cons (x : ascii) (s : string) :
  has_close (String x s) <-> x = "}"%char \/ has_close s.
Proof.
  split.
  - intros (b & c & H). destruct b as [|y b].
    + left. rewrite string_app_nil, string_app_cons in H. congruence.
    + right. exists b, c. rewrite string_app_cons in H. congruence.
  - intros [->|(b & c & ->)].
    + by exists "", s.
    + by exists (String x b), c.
Qed.


Lemma upto_last_close_None (s : string) :
  upto_last_close s = None <-> ~ has_close s.
Proof.
  induction s as [|x s IH]; cbn.
  - split; [|done]. intros _ (b & c & H). by destruct b.
  - rewrite has_close_cons. destruct (upto_last_close s) as [m|].
    + split; [done|]. intros H. exfalso.
      destruct IH as [_ IH].
      assert (Hn : ~ has_close s) by tauto.
      by specialize (IH Hn).
    + destruct (Ascii.eqb_spec x "}"%char) as [->|Hx].
      * split; [done|]. intros H. exfalso. apply H. by left.
      * split; [|done]. intros _ [?|?]; [done|]. by apply IH.
Qed.

Lemma from_first_open_None (text : string) :
  from_first_open text = None ->
  forall a r : string, text <> a +:+ "{" +:+ r.
Proof.
  induction text as [|x text IH]; cbn; intros H a r Heq.
  - by destruct a.
  - destruct (Ascii.eqb_spec x "{"%char) as [->|Hx]; [done|].
    destruct a as [|y a].
    + rewrite string_app_nil, string_app_cons, string_app_nil in Heq.
      congruence.
    + rewrite string_app_cons in Heq. injection Heq as -> Heq.
      by apply (IH H a r).
Qed.







End ParsingFacts.

(** ** The router: provider selection *)

Section RoutingFacts.

Import AIRouter.

Context {Features : Type}.
Context (cloud_prompt local_prompt : Features -> string).

Abbreviation analyze_video := (analyze_video cloud_prompt local_prompt).
Abbreviation gemini_call := (gemini_call cloud_prompt).
Abbreviation _analyze_with_local_llm := (_analyze_with_local_llm local_prompt).

Implicit Types (self : AIRouter.t) (g : genai) (features : Features).



(** Looking at more polls never changes an outcome already reached. *)
Lemma wait_while_processing_more fuel k g n st out :
  wait_while_processing fuel g n st = Some out ->
  wait_while_processing (fuel + k) g n st = Some out.
Proof.
  revert n st. induction fuel as [|fuel IH]; intros n st; destruct st; cbn;
    try done.
  - by destruct k.
  - by destruct k.
  - destruct (get_file g n); [apply IH | done].
Qed.

Lemma gemini_call_more fuel k g video_path features out :
  gemini_call fuel g video_path features = Some out ->
  gemini_call (fuel + k) g video_path features = Some out.
Proof.
  unfold AIRouter.gemini_call.
  destruct (upload_file g video_path) as [st|]; [|done].
  destruct (wait_while_processing fuel g 0 st) as [w|] eqn:E; [|done].
  by rewrite (wait_while_processing_more _ k _ _ _ _ E).
Qed.

(** A file that ends up FAILED makes the cloud call fail. *)
Lemma gemini_call_failed_file fuel g video_path features st :
  upload_file g video_path = Ok st ->
  wait_while_processing fuel g 0 st = Some (Ok FAILED) ->
  gemini_call fuel g video_path features =
    Some (Raise (Exception "Gemini video processing failed")).
Proof. intros Hu Hw. unfold AIRouter.gemini_call. by rewrite Hu, Hw. Qed.


End RoutingFacts.


(** ** The video processor *)

Ltac qc_differ :=
  let H := fresh in intros H; apply (f_equal this) in H; vm_compute in H;
  discriminate H.

Section VideoProcessorFacts.

Import VideoProcessor.
Local Open Scope list_scope.

Context {Frame : Type}.
Context (gray : Frame -> list Z) (Laplacian_var : list Z -> Qc).

Abbreviation scan_frames := (scan_frames gray).
Abbreviation _detect_scenes := (_detect_scenes gray).
Abbreviation sample_loop := (sample_loop gray Laplacian_var).
Abbreviation _extract_features_sync :=
  (_extract_features_sync gray Laplacian_var).

Implicit Types (cap : VideoCapture (Frame := Frame)) (fps : Qc)
               (pre rest : list Frame).

Lemma py_div_nonzero (a b : Qc) : b <> 0 -> py_div a b = Ok (a / b).
Proof. intros Hb. unfold py_div. by rewrite bool_decide_false. Qed.

Lemma absdiff_same_length (a b : list Z) :
  length a = length b ->
  absdiff a b = Ok (zip_with (fun x y => Z.abs (x - y)) a b).
Proof. intros H. unfold absdiff. by rewrite H, Nat.eqb_refl. Qed.

(** The images around the frame the scan is at, when [pre] has been read. *)
Lemma lookup_around pre (f : Frame) rest (p : list Z) :
  list.last (gray <$> pre) = Some p ->
  (gray <$> (pre ++ f :: rest)) !! (length pre - 1)%nat = Some p /\
  (gray <$> (pre ++ f :: rest)) !! length pre = Some (gray f) /\
  (0 < length pre)%nat.
Proof.
  intros Hp. destruct pre as [|f0 pre] using rev_ind; [done|].
  rewrite fmap_app in Hp. change (gray <$> [f0]) with [gray f0] in Hp.
  rewrite last_snoc in Hp. injection Hp as <-.
  rewrite length_app, Nat.add_1_r.
  rewrite <- app_assoc, !fmap_app.
  change (gray <$> ([f0] ++ f :: rest))
    with (gray f0 :: gray f :: (gray <$> rest)).
  replace (S (length pre) - 1)%nat with (length pre) by lia.
  rewrite (lookup_app_r _ _ (length pre)) by (by rewrite length_fmap).
  rewrite (lookup_app_r _ _ (S (length pre))) by (rewrite length_fmap; lia).
  rewrite length_fmap, Nat.sub_diag.
  replace (S (length pre) - length pre)%nat with 1%nat by lia.
  repeat split. lia.
Qed.

(** The loop of [_detect_scenes], once the frames [pre] are behind it. *)
Lemma scan_frames_spec fps rest : forall pre scenes,
  same_shape (gray <$> (pre ++ rest)) ->
  scan_frames fps rest (list.last (gray <$> pre)) (Z.of_nat (length pre))
              scenes =
  scan_outcome fps (gray <$> (pre ++ rest))
    (List.filter (is_cut (gray <$> (pre ++ rest)))
                 (seq (length pre) (length rest)))
    scenes.
Proof.
  induction rest as [|f rest IH]; intros pre scenes Hshape; [done|].
  assert (Hnext :
    scan_frames fps rest (Some (gray f)) (Z.of_nat (length pre) + 1) =
    scan_frames fps rest (list.last (gray <$> (pre ++ [f])))
                (Z.of_nat (length (pre ++ [f])))).
  { rewrite fmap_app. change (gray <$> [f]) with [gray f].
    rewrite last_snoc, length_app. cbn [length].
    by replace (Z.of_nat (length pre + 1))
         with (Z.of_nat (length pre) + 1)%Z by lia. }
  assert (Hall : (pre ++ [f]) ++ rest = pre ++ f :: rest)
    by (by rewrite <- app_assoc).
  assert (Hlen : length (pre ++ [f]) = S (length pre))
    by (rewrite length_app; cbn; lia).
  cbn [VideoProcessor.scan_frames length seq List.filter].
  destruct (list.last (gray <$> pre)) as [p|] eqn:Hp.
  - destruct (lookup_around pre f rest p Hp) as (Hprev & Hcur & Hpos).
    assert (Hsame : length p = length (gray f)).
    { apply Hshape; eapply list_elem_of_lookup_2; eassumption. }
    assert (Hcut : is_cut (gray <$> (pre ++ f :: rest)) (length pre) =
                   bool_decide (scene_threshold < mean_abs_diff p (gray f))).
    { destruct (length pre) as [|j] eqn:Ej; [lia|]. cbn [is_cut].
      replace (S j - 1)%nat with j in Hprev by lia.
      by rewrite Hprev, Hcur. }
    rewrite Hcut. unfold scene_step.
    rewrite (absdiff_same_length _ _ Hsame). cbn.
    fold (mean_abs_diff p (gray f)).
    destruct (bool_decide (scene_threshold < mean_abs_diff p (gray f))).
    + unfold py_div. case_bool_decide as Hfps.
      * cbn. unfold scan_outcome. by rewrite bool_decide_true by done.
      * cbn. rewrite Hnext, IH by (by rewrite Hall).
        rewrite Hall, Hlen. unfold scan_outcome.
        rewrite !bool_decide_false by done.
        assert (Hc : mk_scene (Z.of_nat (length pre))
                       (Z2Qc (Z.of_nat (length pre)) / fps)
                       (mean_abs_diff p (gray f)) =
                     cut_at fps (gray <$> (pre ++ f :: rest)) (length pre)).
        { unfold cut_at. by rewrite Hprev, Hcur. }
        rewrite Hc.
        destruct (List.filter _ (seq (S (length pre)) (length rest)));
          cbn; [done|].
        by rewrite <- app_assoc.
    + cbn. rewrite Hnext, IH by (by rewrite Hall). by rewrite Hall, Hlen.
  - apply last_None, fmap_nil_inv in Hp. subst pre. cbn.
    change (0 + 1)%Z with (Z.of_nat (length ([] ++ [f]))).
    change (Some (gray f)) with (list.last (gray <$> ([] ++ [f]))).
    by rewrite IH.
Qed.

Lemma detect_scenes_spec cap fps :
  isOpened cap = true ->
  same_shape (gray <$> read_all cap) ->
  _detect_scenes cap fps =
    scan_outcome fps (gray <$> read_all cap)
                 (cut_positions (gray <$> read_all cap)) [].
Proof.
  intros Hopen Hshape. unfold VideoProcessor._detect_scenes. rewrite Hopen.
  unfold cut_positions. rewrite length_fmap.
  exact (scan_frames_spec fps (read_all cap) [] [] Hshape).
Qed.

Lemma is_cut_spec (grays : list (list Z)) (i : nat) :
  is_cut grays i = true <->
  exists (j : nat) (prev cur : list Z),
    i = S j /\ grays !! j = Some prev /\ grays !! i = Some cur /\
    scene_threshold < mean_abs_diff prev cur.
Proof.
  destruct i as [|j]; cbn [is_cut].
  - split; [done|]. by intros (j & ? & ? & ? & _).
  - destruct (grays !! j) as [p|] eqn:Ep, (grays !! S j) as [g|] eqn:Eg.
    + rewrite bool_decide_eq_true. split.
      * intros H. by exists j, p, g.
      * intros (j' & p' & g' & [= <-] & Hp & Hg & H). congruence.
    + split; [done|].
      intros (j' & p' & g' & [= <-] & Hp & Hg & H). congruence.
    + split; [done|].
      intros (j' & p' & g' & [= <-] & Hp & Hg & H). congruence.
    + split; [done|].
      intros (j' & p' & g' & [= <-] & Hp & Hg & H). congruence.
Qed.

Lemma cut_positions_spec (grays : list (list Z)) (i : nat) :
  In i (cut_positions grays) <-> is_cut grays i = true.
Proof.
  unfold cut_positions. rewrite List.filter_In, in_seq. split; [tauto|].
  intros H. split; [|done].
  apply is_cut_spec in H as (j & p & g & -> & _ & Hg & _).
  apply lookup_lt_Some in Hg. lia.
Qed.






Lemma duration_of_ok (n : Z) fps :
  duration_of n fps = Ok (if bool_decide (0 < fps) then Z2Qc n / fps else 0).
Proof.
  unfold duration_of. case_bool_decide as Hpos; [|done].
  apply py_div_nonzero. intros ->. revert Hpos. qc_compare.
Qed.

(** C7. Metadata extraction never raises: it returns the container's
    properties with duration = frame_count / fps when fps is positive and
    duration = 0 when fps is 0, and these are the metadata of every feature
    summary the extraction returns. *)
Theorem duration_guarded cap :
  exists meta,
    extract_metadata cap = Ok meta /\
    fps meta = CAP_PROP_FPS cap /\
    frame_count meta = CAP_PROP_FRAME_COUNT cap /\
    (0 < CAP_PROP_FPS cap ->
     duration meta = Z2Qc (CAP_PROP_FRAME_COUNT cap) / CAP_PROP_FPS cap) /\
    (CAP_PROP_FPS cap = 0 -> duration meta = 0) /\
    (forall librosa extract_audio sample_frames frame_interval features,
        _extract_features_sync cap librosa extract_audio sample_frames
                               frame_interval = Ok features ->
        f_metadata features = meta).
Proof.
  unfold VideoProcessor._extract_features_sync, extract_metadata.
  rewrite duration_of_ok. cbn. eexists. split; [reflexivity|]. cbn.
  repeat split.
  - intros Hpos. by rewrite bool_decide_true.
  - intros ->. by rewrite bool_decide_false by qc_compare.
  - intros librosa ea sf fi features.
    destruct (isOpened cap); cbn; [|done].
    destruct (if sf then _ else _); cbn; [|done].
    destruct (VideoProcessor._detect_scenes _ _ _); cbn; [|done].
    by intros [= <-].
Qed.

(** With a zero frame rate the sampling loop stops at the first index that
    decodes. *)
Lemma sample_loop_fps_zero cap (w h : Z) (idxs : list Z)
    (acc : list frame_sample) :
  sample_loop cap 0 w h idxs acc =
    if existsb (decodes cap) idxs then Raise ZeroDivisionError else Ok acc.
Proof.
  induction idxs as [|idx idxs IH]; cbn; [done|].
  unfold decodes at 1. by destruct (read_at cap idx).
Qed.

Lemma py_range_ok (start stop step : Z) :
  step <> 0%Z -> exists idxs, py_range start stop step = Ok idxs.
Proof.
  intros H. unfold py_range. apply Z.eqb_neq in H. rewrite H. by eexists.
Qed.

(** C9 (as amended). On an opened video whose frame rate is 0 (frames of
    one size), feature extraction raises a division-by-zero error exactly
    when a timestamp is computed: in frame sampling, when sampling is on
    and some sampled index decodes ([idx / fps]), or in scene detection,
    when a cut is found ([frame_idx / fps]).  Otherwise it returns
    normally, with duration 0, no frame sample and no cut.  (Sampling with
    a zero [frame_interval] is refused by [range] before any of this.) *)
Theorem fps_zero_raises_on_first_timestamp
    cap librosa (extract_audio sample_frames : bool) (frame_interval : Z) :
  isOpened cap = true ->
  CAP_PROP_FPS cap = 0 ->
  same_shape (gray <$> read_all cap) ->
  _extract_features_sync cap librosa extract_audio sample_frames
                         frame_interval =
    if sample_frames && (frame_interval =? 0)%Z
    then Raise (ValueError "range() arg 3 must not be zero")
    else if sampling_decodes cap sample_frames frame_interval
            || has_cut (gray <$> read_all cap)
    then Raise ZeroDivisionError
    else Ok (mk_features
               (mk_metadata 0 (CAP_PROP_FRAME_COUNT cap)
                  (CAP_PROP_FRAME_WIDTH cap) (CAP_PROP_FRAME_HEIGHT cap) 0
                  (str (CAP_PROP_FRAME_WIDTH cap) +:+ ":" +:+
                   str (CAP_PROP_FRAME_HEIGHT cap)))
               (if sample_frames then Some [] else None) []
               (if extract_audio then Some (_extract_audio_features librosa)
                else None)).
Proof.
  intros Hopen Hfps Hshape.
  unfold VideoProcessor._extract_features_sync, extract_metadata,
         sampling_decodes, has_cut.
  rewrite Hopen, duration_of_ok, Hfps. cbn.
  rewrite detect_scenes_spec by done. unfold scan_outcome.
  destruct sample_frames; cbn.
  - destruct (Z.eqb_spec frame_interval 0) as [->|Hint]; [done|].
    destruct (py_range_ok 0 (CAP_PROP_FRAME_COUNT cap) frame_interval Hint)
      as [idxs Hr].
    rewrite Hr. cbn. rewrite sample_loop_fps_zero.
    destruct (existsb (decodes cap) idxs); cbn; [done|].
    by destruct (cut_positions (gray <$> read_all cap)).
  - by destruct (cut_positions (gray <$> read_all cap)).
Qed.

End VideoProcessorFacts.

(** *** On the sample clips *)

Lemma two_frame_same_shape :
  VideoProcessor.same_shape (luma <$> [dark_frame; grey_frame]).
Proof.
  intros g1 g2 H1%list_elem_of_In H2%list_elem_of_In. cbn in H1, H2.
  by destruct H1 as [<-|[<-|[]]], H2 as [<-|[<-|[]]].
Qed.


Lemma duration_guarded_witness :
  0 < VideoProcessor.CAP_PROP_FPS header_clip /\
  VideoProcessor.CAP_PROP_FPS still_clip = 0 /\
  (exists meta,
      VideoProcessor.extract_metadata header_clip = Ok meta /\
      VideoProcessor.duration meta = Z2Qc 100 / Z2Qc 25) /\
  (exists meta,
      VideoProcessor.extract_metadata still_clip = Ok meta /\
      VideoProcessor.duration meta = 0).
Proof.
  assert (Hpos : 0 < VideoProcessor.CAP_PROP_FPS header_clip) by qc_compare.
  split; [exact Hpos|]. split; [reflexivity|]. split.
  - destruct (duration_guarded luma flat_variance header_clip)
      as (meta & Hrun & _ & _ & Hd & _).
    exists meta. split; [exact Hrun | exact (Hd Hpos)].
  - destruct (duration_guarded luma flat_variance still_clip)
      as (meta & Hrun & _ & _ & _ & Hz & _).
    exists meta. split; [exact Hrun | exact (Hz eq_refl)].
Defined.

Lemma one_frame_same_shape :
  VideoProcessor.same_shape (luma <$> [grey_frame]).
Proof.
  intros g1 g2 H1%list_elem_of_In H2%list_elem_of_In. cbn in H1, H2.
  by destruct H1 as [<-|[]], H2 as [<-|[]].
Qed.

(** Sampling the still clip decodes frame 0 and divides by the zero rate. *)
Lemma fps_zero_raises_on_first_timestamp_witness :
  VideoProcessor.isOpened still_clip = true /\
  VideoProcessor.CAP_PROP_FPS still_clip = 0 /\
  VideoProcessor.same_shape (luma <$> VideoProcessor.read_all still_clip) /\
  VideoProcessor.sampling_decodes still_clip true 30 = true /\
  VideoProcessor._extract_features_sync luma flat_variance still_clip
    silent_audio true true 30 = Raise ZeroDivisionError.
Proof.
  split; [reflexivity|]. split; [reflexivity|].
  split; [exact one_frame_same_shape|]. split; [reflexivity|].
  exact (fps_zero_raises_on_first_timestamp luma flat_variance still_clip
           silent_audio true true 30 eq_refl eq_refl one_frame_same_shape).
Defined.

(** C9, as stated, fails: with a zero frame rate and a frame that decodes,
    extraction returns normally when sampling is off and no cut is found,
    and also, with sampling on, when the header reports no frame to sample. *)
Lemma fps_zero_extraction_can_return :
  (VideoProcessor.isOpened still_clip = true /\
   VideoProcessor.CAP_PROP_FPS still_clip = 0 /\
   VideoProcessor.read_all still_clip = [grey_frame] /\
   VideoProcessor.read_at still_clip 0 = Some grey_frame /\
   exists features,
     VideoProcessor._extract_features_sync luma flat_variance still_clip
       silent_audio true false 30 = Ok features /\
     VideoProcessor.duration (VideoProcessor.f_metadata features) = 0 /\
     VideoProcessor.f_frames features = None /\
     VideoProcessor.f_scenes features = [])
  /\
  (VideoProcessor.isOpened headerless_clip = true /\
   VideoProcessor.CAP_PROP_FPS headerless_clip = 0 /\
   VideoProcessor.read_all headerless_clip = [grey_frame; grey_frame] /\
   exists features,
     VideoProcessor._extract_features_sync luma flat_variance headerless_clip
       silent_audio true true 30 = Ok features /\
     VideoProcessor.duration (VideoProcessor.f_metadata features) = 0 /\
     VideoProcessor.f_frames features = Some [] /\
     VideoProcessor.f_scenes features = []).
Proof.
  split.
  - do 4 (split; [reflexivity|]). eexists. split; [vm_compute; reflexivity|].
    by repeat split.
  - do 3 (split; [reflexivity|]). eexists. split; [vm_compute; reflexivity|].
    by repeat split.
Qed.

(** * Further properties *)

(** ** More rational arithmetic *)

Lemma Z2Qc_0 : Z2Qc 0 = 0.
Proof. qc_equal. Qed.


Lemma Z2Qc_neg (z : Z) : (z < 0)%Z -> Z2Qc z < 0.
Proof.
  intros Hz. unfold Qclt, Z2Qc. simpl. rewrite !Qred_correct.
  unfold Qlt. simpl. lia.
Qed.

Lemma Z2Qc_mul (a b : Z) : Z2Qc a * Z2Qc b = Z2Qc (a * b).
Proof.
  apply Qc_is_canon. unfold Z2Qc. cbn. rewrite !Qred_correct.
  unfold Qeq. cbn. lia.
Qed.

Lemma Z2Qc_opp (a : Z) : - Z2Qc a = Z2Qc (- a).
Proof.
  apply Qc_is_canon. unfold Z2Qc. cbn. rewrite !Qred_correct.
  unfold Qeq. cbn. lia.
Qed.

Lemma Z2Qc_inj_neq (a : Z) : a <> 0%Z -> Z2Qc a <> 0.
Proof.
  intros Ha H. apply (f_equal this) in H. unfold Z2Qc in H. cbn in H.
  assert (Hq : (inject_Z a == 0)%Q).
  { rewrite <- (Qred_correct (inject_Z a)), H. reflexivity. }
  unfold Qeq in Hq. cbn in Hq. lia.
Qed.

Lemma Qfloor_Z2Qc (n : Z) : Qfloor (Z2Qc n) = n.
Proof.
  unfold Z2Qc. cbn. rewrite (Qfloor_comp _ _ (Qred_correct _)).
  apply Qfloor_Z.
Qed.

Lemma round_half_even_Z (n : Z) : round_half_even (Z2Qc n) = n.
Proof.
  unfold round_half_even. rewrite Qfloor_Z2Qc.
  rewrite bool_decide_true; [done|].
  unfold Qcminus. rewrite Qcplus_opp_r. qc_compare.
Qed.

(** Rounding to two decimals leaves whole numbers as they are. *)
Lemma round2_Z (n : Z) : round2 (Z2Qc n) = Z2Qc n.
Proof.
  unfold round2. rewrite Z2Qc_mul, round_half_even_Z, <- Z2Qc_mul.
  unfold Qcdiv. rewrite <- Qcmult_assoc, Qcmult_inv_r by qc_differ.
  apply Qcmult_1_r.
Qed.


(** ** The cost ledger, continued *)

Section CostTrackerMore.

Import CostTracker.

Lemma init_snapshot now (s : t) :
  init (Some (snapshot now s)) = mk_world s (Some (snapshot now s)).
Proof. by destruct s. Qed.

Lemma save_ok e w :
  write_ok e = true ->
  _save e w = (Ok tt, mk_world (self w) (Some (snapshot (now_iso e) (self w)))).
Proof. intros H. unfold _save. by rewrite H. Qed.

Lemma run_call_saved e c w :
  write_ok e = true ->
  run_call (e, c) w =
    mk_world (self (run_call (e, c) w))
             (Some (snapshot (now_iso e) (self (run_call (e, c) w)))).
Proof.
  intros H. destruct c; cbn;
    unfold record_analysis, record_chat, record_image_generation,
           record_cache_hit, _save; cbn; by rewrite H.
Qed.

(** X1. Save and reload round trip: after any recording call, or a reset,
    whose write of the ledger file went through, a tracker started from
    that file is exactly the tracker as the call left it. *)
Theorem restart_restores_saved_ledger e c w :
  write_ok e = true ->
  init (persist_file (run_call (e, c) w)) = run_call (e, c) w /\
  init (persist_file (reset e w).2) = (reset e w).2.
Proof.
  intros H. split.
  - rewrite (run_call_saved e c w H) at 1 2. cbn [persist_file].
    by rewrite init_snapshot, <- run_call_saved.
  - unfold reset, _save. cbn. by rewrite H.
Qed.



Lemma run_call_counters ec w :
  api_calls (self (run_call ec w)) =
    (api_calls (self w) + if is_cache_hit_call ec.2 then 0 else 1)%Z /\
  cache_hits (self (run_call ec w)) =
    (cache_hits (self w) + if is_cache_hit_call ec.2 then 1 else 0)%Z.
Proof.
  destruct ec as [e [p m n|p n|p m|o]]; cbn.
  - rewrite record_analysis_self. cbn. lia.
  - rewrite record_chat_self. cbn. lia.
  - rewrite record_image_generation_self. cbn. lia.
  - rewrite record_cache_hit_self. cbn. lia.
Qed.

(** X4. Over any sequence of recording calls, [api_calls] grows by the
    number of analysis, chat and image recordings and [cache_hits] by the
    number of cache-hit recordings, whether or not the writes succeed. *)
Theorem counters_count_calls cs w :
  api_calls (self (run_calls cs w)) =
    (api_calls (self w) + count_api_calls cs)%Z /\
  cache_hits (self (run_calls cs w)) =
    (cache_hits (self w) + count_cache_hits cs)%Z.
Proof.
  unfold count_api_calls, count_cache_hits, run_calls.
  revert w. induction cs as [|ec cs IH]; intros w; cbn; [lia|].
  destruct (IH (run_call ec w)) as [-> ->].
  destruct (run_call_counters ec w) as [-> ->].
  destruct (is_cache_hit_call ec.2); cbn [negb length]; lia.
Qed.

Lemma cache_hits_only cs w :
  Forall (fun ec => is_cache_hit_call ec.2 = true) cs ->
  self (run_calls cs w) =
    mk (total_cost (self w)) (breakdown (self w)) (api_calls (self w))
       (cache_hits (self w) + Z.of_nat (length cs)).
Proof.
  intros H. revert w. induction H as [|[e c] cs Hc _ IH]; intros w.
  - cbn. destruct (self w). cbn. f_equal. lia.
  - destruct c; try done. cbn [run_calls fold_left run_call].
    change (fold_left _ cs ?x) with (run_calls cs x).
    rewrite IH, record_cache_hit_self. cbn. f_equal. lia.
Qed.

Lemma get_report_run w :
  get_report w =
    (Ok (let s := self w in
         let total_operations := (api_calls s + cache_hits s)%Z in
         let cache_hit_rate :=
           if bool_decide (0 < total_operations)%Z
           then Z2Qc (cache_hits s) / Z2Qc total_operations * Z2Qc 100
           else 0 in
         let costs_saved := Z2Qc (cache_hits s) * Z2Qc 2 in
         mk_cost_report (round2 (total_cost s)) (round2 <$> breakdown s)
           (api_calls s) (cache_hits s) (round2 cache_hit_rate)
           (round2 costs_saved) (round2 (total_cost s - costs_saved))), w).
Proof. reflexivity. Qed.

(** X5. On a fresh ledger that has recorded only cache hits, [n >= 1] of
    them, [get_report] shows a total of 0, a hit rate of 100, savings of
    [2 n] and a negative net cost [-2 n], and leaves the tracker unchanged. *)
Theorem report_after_cache_hits_only cs :
  Forall (fun ec => is_cache_hit_call ec.2 = true) cs ->
  cs <> [] ->
  exists r,
    get_report (run_calls cs (init None)) =
      (Ok r, run_calls cs (init None)) /\
    r_total_cost r = 0 /\
    r_api_calls r = 0%Z /\
    r_cache_hits r = Z.of_nat (length cs) /\
    r_cache_hit_rate r = Z2Qc 100 /\
    r_costs_saved r = Z2Qc (2 * Z.of_nat (length cs)) /\
    r_net_cost r = Z2Qc (- (2 * Z.of_nat (length cs))).
Proof.
  intros Hhits Hne. eexists. split; [apply get_report_run|].
  rewrite (cache_hits_only cs (init None) Hhits). cbn.
  assert (Hn : (0 < Z.of_nat (length cs))%Z) by (destruct cs; [done | cbn; lia]).
  set (n := Z.of_nat (length cs)) in *.
  rewrite bool_decide_true by done.
  assert (Hsaved : Z2Qc n * Z2Qc 2 = Z2Qc (2 * n)).
  { rewrite Z2Qc_mul. f_equal. lia. }
  rewrite !Z.add_0_l, Hsaved.
  assert (Hrate : Z2Qc n / Z2Qc n * Z2Qc 100 = Z2Qc 100).
  { unfold Qcdiv. rewrite Qcmult_inv_r by (apply Z2Qc_inj_neq; lia).
    apply Qcmult_1_l. }
  rewrite Hrate.
  assert (Hnet : 0 - Z2Qc (2 * n) = Z2Qc (- (2 * n))).
  { unfold Qcminus. by rewrite Qcplus_0_l, Z2Qc_opp. }
  rewrite Hnet, !round2_Z.
  repeat split. rewrite <- Z2Qc_0. apply round2_Z.
Qed.

Lemma price_pos (model : string) :
  model <> "local_llm" -> 0 < analysis_price model.
Proof.
  intros Hm. unfold analysis_price.
  destruct (COST_PER_1K_TOKENS !! model) as [p|] eqn:E; cbn; [|qc_compare].
  apply elem_of_list_to_map_2, list_elem_of_In in E. cbn in E.
  repeat (destruct E as [[= <- <-]|E]; [try qc_compare; done|]). done.
Qed.

(** X6. Token counts are not validated: for a provider and a model other
    than ["local_llm"], a negative token count gives a negative cost, and
    recording it lowers the running total. *)
Theorem negative_tokens_lower_the_total e provider model tokens w :
  provider <> "local_llm" ->
  model <> "local_llm" ->
  (tokens < 0)%Z ->
  analysis_cost provider model tokens < 0 /\
  total_cost (self (record_analysis e provider model tokens w).2) <
    total_cost (self w).
Proof.
  intros Hp Hm Hn.
  assert (Hc : analysis_cost provider model tokens < 0).
  { unfold analysis_cost. apply String.eqb_neq in Hp. rewrite Hp.
    fold (analysis_price model).
    pose proof (price_pos model Hm) as Hprice.
    pose proof (Z2Qc_neg tokens Hn) as Htok.
    revert Hprice Htok. generalize (analysis_price model) (Z2Qc tokens).
    intros p t Hprice Htok. qc_to_q. change (inject_Z 1000) with 1000%Q.
    change (/ 1000)%Q with (1 # 1000)%Q. nra. }
  split; [exact Hc|]. rewrite record_analysis_self. cbn.
  revert Hc. generalize (analysis_cost provider model tokens) (total_cost (self w)).
  intros c t Hc. qc_to_q. lra.
Qed.
Lemma restart_restores_saved_ledger_witness :
  let e := mk_env true "2025-01-01T12:00:00" in
  let c := RecordChat "gemini" 1000 in
  write_ok e = true /\
  init (persist_file (run_call (e, c) (init None))) =
    run_call (e, c) (init None).
Proof.
  cbn zeta. split; [reflexivity|].
  exact (proj1 (restart_restores_saved_ledger
    (mk_env true "2025-01-01T12:00:00") (RecordChat "gemini" 1000)
    (init None) eq_refl)).
Defined.


Lemma report_after_cache_hits_only_witness :
  let e := mk_env true "2025-01-01T12:00:00" in
  let cs := [(e, RecordCacheHit "analysis"); (e, RecordCacheHit "analysis")] in
  Forall (fun ec => is_cache_hit_call ec.2 = true) cs /\
  exists r,
    get_report (run_calls cs (init None)) =
      (Ok r, run_calls cs (init None)) /\
    r_costs_saved r = Z2Qc 4 /\ r_net_cost r = Z2Qc (-4).
Proof.
  cbn zeta.
  assert (H : Forall (fun ec : env * call => is_cache_hit_call ec.2 = true)
    [(mk_env true "2025-01-01T12:00:00", RecordCacheHit "analysis");
     (mk_env true "2025-01-01T12:00:00", RecordCacheHit "analysis")])
    by (by repeat constructor).
  split; [exact H|].
  destruct (report_after_cache_hits_only _ H ltac:(discriminate))
    as (r & Hrun & _ & _ & _ & _ & Hsaved & Hnet).
  exists r. split; [exact Hrun|]. split; [exact Hsaved | exact Hnet].
Defined.

Lemma negative_tokens_lower_the_total_witness :
  let e := mk_env true "2025-01-01T12:00:00" in
  "gemini" <> "local_llm" /\ "gemini-1.5-flash" <> "local_llm" /\
  (-1000 < 0)%Z /\
  total_cost
    (self (record_analysis e "gemini" "gemini-1.5-flash" (-1000)
                           (init None)).2) <
    total_cost (self (init None)).
Proof.
  cbn zeta.
  assert (Hp : "gemini" <> "local_llm") by discriminate.
  assert (Hm : "gemini-1.5-flash" <> "local_llm") by discriminate.
  assert (Hn : (-1000 < 0)%Z) by lia.
  split; [exact Hp|]. split; [exact Hm|]. split; [exact Hn|].
  exact (proj2 (negative_tokens_lower_the_total
    (mk_env true "2025-01-01T12:00:00") "gemini" "gemini-1.5-flash" (-1000)
    (init None) Hp Hm Hn)).
Defined.

End CostTrackerMore.

(** ** The cache manager, continued *)

Section CacheManagerMore.

Import CacheManager.

Context {V : Type}.
Implicit Types (s : CacheManager.t V) (e : env) (key : string)
               (v : option V) (ttl : option Z).

(** X7. TTL round trip: after a [set] with a non-zero TTL of [n] seconds
    that the store accepts, a [get] the store answers returns the stored
    object while the clock is before [write time + n], and from then on
    returns [None] and counts a miss. *)
Theorem ttl_entry_expires e e' key v (n : Z) s :
  store_raises e = false ->
  store_raises e' = false ->
  n <> 0%Z ->
  (now e' < now e + Z2Qc n ->
   (get e' key (set e key v (Some n) s).2).1 = v) /\
  (now e + Z2Qc n <= now e' ->
   get e' key (set e key v (Some n) s).2 =
     (None, mk (cache (set e key v (Some n) s).2)
               (count_miss (count_set (self_stats s))))).
Proof.
  intros He He' Hn.
  assert (Ht : truthy (Some n) = true).
  { cbn. by apply negb_true_iff, Z.eqb_neq. }
  unfold set. rewrite He, Ht. cbn. unfold get. rewrite He'. cbn.
  unfold cache_get, cache_set. rewrite lookup_insert_eq. unfold live. cbn.
  split; intros Hlt.
  - rewrite bool_decide_true by done. by destruct v.
  - rewrite bool_decide_false by (by apply Qcle_not_lt). done.
Qed.

(** X8. A negative TTL is accepted: [set] reports success and counts the
    write, but the entry is expired from the start, so no read at or after
    the write time returns it. *)
Theorem negative_ttl_is_born_expired e e' key v (n : Z) s :
  store_raises e = false ->
  store_raises e' = false ->
  (n < 0)%Z ->
  now e <= now e' ->
  (set e key v (Some n) s).1 = true /\
  sets (self_stats (set e key v (Some n) s).2) = (sets (self_stats s) + 1)%Z /\
  (get e' key (set e key v (Some n) s).2).1 = None.
Proof.
  intros He He' Hn Hlater.
  assert (Ht : truthy (Some n) = true).
  { cbn. apply negb_true_iff, Z.eqb_neq. lia. }
  unfold set. rewrite He, Ht. cbn. repeat split.
  unfold get. rewrite He'. cbn.
  unfold cache_get, cache_set. rewrite lookup_insert_eq. unfold live. cbn.
  rewrite bool_decide_false; [done|].
  apply Qcle_not_lt. eapply Qcle_trans; [|exact Hlater].
  assert (Hneg : Z2Qc n <= 0).
  { unfold Qcle, Z2Qc. simpl. rewrite !Qred_correct. unfold Qle. simpl. lia. }
  revert Hneg. generalize (Z2Qc n) (now e). intros a b Ha. qc_to_q. lra.
Qed.

(** X9. Storing [None] succeeds, but reading it back returns [None] and
    counts a miss, as for a key that was never stored. *)
Theorem stored_none_reads_as_miss e e' key ttl s :
  store_raises e = false ->
  store_raises e' = false ->
  (set e key None ttl s).1 = true /\
  get e' key (set e key None ttl s).2 =
    (None, mk (cache (set e key None ttl s).2)
              (count_miss (count_set (self_stats s)))).
Proof.
  intros He He'. unfold set. rewrite He. cbn. split; [done|].
  unfold get. rewrite He'. cbn. unfold cache_get.
  destruct (truthy ttl); unfold cache_set; rewrite lookup_insert_eq; cbn;
    by repeat case_match.
Qed.

Lemma cache_get_other now' key key' (c : gmap string (entry V)) (x : entry V) :
  key <> key' ->
  cache_get now' key' (<[key := x]> c) = cache_get now' key' c.
Proof. intros H. unfold cache_get. by rewrite lookup_insert_ne. Qed.

Lemma get_value e key s :
  (get e key s).1 =
    if store_raises e then None else cache_get (now e) key (cache s).
Proof.
  unfold get. destruct (store_raises e); [done|].
  by destruct (cache_get (now e) key (cache s)).
Qed.

(** X10. Keys are independent: what [get] returns for a key is not
    changed by a [set] or a [delete] of another key. *)
Theorem other_keys_untouched e e' key key' v ttl s :
  key <> key' ->
  (get e' key' (set e key v ttl s).2).1 = (get e' key' s).1 /\
  (get e' key' (delete e key s).2).1 = (get e' key' s).1.
Proof.
  intros Hk. rewrite !get_value. destruct (store_raises e'); [done|]. split.
  - unfold set. destruct (store_raises e); [done|]. cbn.
    destruct (truthy ttl); unfold cache_set; by rewrite cache_get_other.
  - unfold delete. destruct (store_raises e); [done|]. unfold cache_delete.
    destruct (cache s !! key) as [x|] eqn:E; [|done].
    destruct (live (now e) x); [|done]. cbn.
    unfold cache_get. by rewrite lookup_delete_ne.
Qed.

(** X11. After a [delete] that reports success the key reads as absent,
    and after [clear_all] every key does; clearing the store does not
    reset the counters. *)
Theorem removed_entries_are_gone e e' key key' s :
  store_raises e = false ->
  ((delete e key s).1 = true ->
   (get e' key (delete e key s).2).1 = None) /\
  (clear_all e s).1 = true /\
  (get e' key' (clear_all e s).2).1 = None /\
  self_stats (clear_all e s).2 = self_stats s.
Proof.
  intros He. rewrite !get_value. unfold delete, clear_all. rewrite He.
  repeat split.
  - unfold cache_delete. destruct (cache s !! key) as [x|] eqn:E; [|done].
    destruct (live (now e) x); [|done]. cbn. intros _.
    destruct (store_raises e'); [done|]. unfold cache_get.
    by rewrite lookup_delete_eq.
  - cbn. destruct (store_raises e'); [done|].
    unfold cache_get. by rewrite lookup_empty.
Qed.


End CacheManagerMore.

Lemma ttl_entry_expires_witness :
  let s := CacheManager.init (V := string) ∅ in
  let e := CacheManager.mk_env false (Z2Qc 1000) 0 in
  let before := CacheManager.mk_env false (Z2Qc 1000 + Z2Qc 604799) 0 in
  let after := CacheManager.mk_env false (Z2Qc 1000 + Z2Qc 604800) 0 in
  let s' := (CacheManager.set e "analysis:abc" (Some "critique")
                              (Some 604800%Z) s).2 in
  CacheManager.store_raises e = false /\
  604800%Z <> 0%Z /\
  CacheManager.now before < CacheManager.now e + Z2Qc 604800 /\
  CacheManager.now e + Z2Qc 604800 <= CacheManager.now after /\
  (CacheManager.get before "analysis:abc" s').1 = Some "critique" /\
  (CacheManager.get after "analysis:abc" s').1 = None.
Proof.
  cbn zeta.
  assert (Hn : 604800%Z <> 0%Z) by lia.
  assert (Hb : Z2Qc 1000 + Z2Qc 604799 < Z2Qc 1000 + Z2Qc 604800)
    by qc_compare.
  assert (Ha : Z2Qc 1000 + Z2Qc 604800 <= Z2Qc 1000 + Z2Qc 604800)
    by apply Qcle_refl.
  split; [reflexivity|]. split; [exact Hn|]. split; [exact Hb|].
  split; [exact Ha|]. split.
  - exact (proj1 (ttl_entry_expires
      (CacheManager.mk_env false (Z2Qc 1000) 0)
      (CacheManager.mk_env false (Z2Qc 1000 + Z2Qc 604799) 0)
      "analysis:abc" (Some "critique") 604800 (CacheManager.init ∅)
      eq_refl eq_refl Hn) Hb).
  - exact (f_equal fst (proj2 (ttl_entry_expires
      (CacheManager.mk_env false (Z2Qc 1000) 0)
      (CacheManager.mk_env false (Z2Qc 1000 + Z2Qc 604800) 0)
      "analysis:abc" (Some "critique") 604800 (CacheManager.init ∅)
      eq_refl eq_refl Hn) Ha)).
Defined.

Lemma negative_ttl_is_born_expired_witness :
  let s := CacheManager.init (V := string) ∅ in
  let e := CacheManager.mk_env false (Z2Qc 1000) 0 in
  (-5 < 0)%Z /\ CacheManager.now e <= CacheManager.now e /\
  (CacheManager.set e "analysis:abc" (Some "critique") (Some (-5)%Z) s).1
    = true /\
  (CacheManager.get e "analysis:abc"
     (CacheManager.set e "analysis:abc" (Some "critique") (Some (-5)%Z) s).2).1
    = None.
Proof.
  cbn zeta.
  assert (Hn : (-5 < 0)%Z) by lia.
  assert (Hl : Z2Qc 1000 <= Z2Qc 1000) by apply Qcle_refl.
  split; [exact Hn|]. split; [exact Hl|].
  destruct (negative_ttl_is_born_expired
    (CacheManager.mk_env false (Z2Qc 1000) 0)
    (CacheManager.mk_env false (Z2Qc 1000) 0)
    "analysis:abc" (Some "critique") (-5) (CacheManager.init ∅)
    eq_refl eq_refl Hn Hl) as (Hok & _ & Hget).
  split; [exact Hok | exact Hget].
Defined.

Lemma stored_none_reads_as_miss_witness :
  let s := CacheManager.init (V := string) ∅ in
  let e := CacheManager.mk_env false (Z2Qc 1000) 0 in
  CacheManager.store_raises e = false /\
  CacheManager.misses (CacheManager.self_stats
    (CacheManager.get e "analysis:abc"
       (CacheManager.set e "analysis:abc" None None s).2).2) = 1%Z.
Proof.
  cbn zeta. split; [reflexivity|].
  exact (f_equal (fun p => CacheManager.misses (CacheManager.self_stats p.2))
    (proj2 (stored_none_reads_as_miss (V := string)
      (CacheManager.mk_env false (Z2Qc 1000) 0)
      (CacheManager.mk_env false (Z2Qc 1000) 0)
      "analysis:abc" None (CacheManager.init ∅) eq_refl eq_refl))).
Defined.

Lemma other_keys_untouched_witness :
  let e := CacheManager.mk_env false (Z2Qc 1000) 0 in
  let s := (CacheManager.set e "analysis:abc" (Some "critique") None
              (CacheManager.init (V := string) ∅)).2 in
  "analysis:def" <> "analysis:abc" /\
  (CacheManager.get e "analysis:abc"
     (CacheManager.set e "analysis:def" (Some "other") None s).2).1 =
  (CacheManager.get e "analysis:abc" s).1.
Proof.
  cbn zeta.
  assert (Hk : "analysis:def" <> "analysis:abc") by discriminate.
  split; [exact Hk|].
  exact (proj1 (other_keys_untouched
    (CacheManager.mk_env false (Z2Qc 1000) 0)
    (CacheManager.mk_env false (Z2Qc 1000) 0)
    "analysis:def" "analysis:abc" (Some "other") None _ Hk)).
Defined.

Lemma removed_entries_are_gone_witness :
  let e := CacheManager.mk_env false (Z2Qc 1000) 0 in
  let s := (CacheManager.set e "analysis:abc" (Some "critique") None
              (CacheManager.init (V := string) ∅)).2 in
  CacheManager.store_raises e = false /\
  (CacheManager.delete e "analysis:abc" s).1 = true /\
  (CacheManager.get e "analysis:abc"
     (CacheManager.delete e "analysis:abc" s).2).1 = None.
Proof.
  cbn zeta.
  assert (Hd : (CacheManager.delete (CacheManager.mk_env false (Z2Qc 1000) 0)
                  "analysis:abc"
                  (CacheManager.set (CacheManager.mk_env false (Z2Qc 1000) 0)
                     "analysis:abc" (Some "critique") None
                     (CacheManager.init (V := string) ∅)).2).1 = true)
    by reflexivity.
  split; [reflexivity|]. split; [exact Hd|].
  exact (proj1 (removed_entries_are_gone
    (CacheManager.mk_env false (Z2Qc 1000) 0)
    (CacheManager.mk_env false (Z2Qc 1000) 0)
    "analysis:abc" "analysis:abc" _ eq_refl) Hd).
Defined.


(** ** The router, continued *)

Section ChatFacts.

Import AIRouter.

Context (json_dumps : Json.value -> string).

Abbreviation chat := (chat json_dumps).
Abbreviation _chat_gemini := (_chat_gemini json_dumps).

Implicit Types (self : AIRouter.t) (g : genai).

Lemma chat_local_provider self message context r :
  _chat_local self message context = Ok r -> chat_provider r = "local_llm".
Proof.
  unfold _chat_local. destruct (local_llm self) as [llm|]; [|done].
  destruct (create_chat_completion llm _ _ _); [|done]. cbn. by intros [= <-].
Qed.

Lemma chat_gemini_provider g message context r :
  _chat_gemini g message context = Ok r -> chat_provider r = "gemini".
Proof.
  unfold AIRouter._chat_gemini.
  destruct (generate_content g _ _); [|done]. cbn. by intros [= <-].
Qed.

(** X13. [chat] picks one provider and stays with it.  Asked for the local
    model with the local model available, the call is the local call: it
    does not depend on the cloud or on the context, and a result is tagged
    ["local_llm"].  Otherwise, with the cloud available, the call is the
    cloud call, tagged ["gemini"], and what the cloud raises is raised:
    unlike [analyze_video] there is no fallback to the local model.  With
    neither, it raises ["No AI provider available for chat"]. *)
Theorem chat_routes_without_fallback self g message context use_local :
  (use_local = true -> local_llm_available self = true ->
   chat self g message context use_local = _chat_local self message context /\
   (forall g' context', chat self g' message context' use_local =
                        chat self g message context use_local) /\
   (forall r, chat self g message context use_local = Ok r ->
              chat_provider r = "local_llm"))
  /\ (use_local && local_llm_available self = false ->
      gemini_available self = true ->
      chat self g message context use_local =
        _chat_gemini g message context /\
      (forall r, chat self g message context use_local = Ok r ->
                 chat_provider r = "gemini") /\
      (forall e,
          (forall m, generate_content g "gemini-1.5-flash" m = Raise e) ->
          chat self g message context use_local = Raise e))
  /\ (use_local && local_llm_available self = false ->
      gemini_available self = false ->
      chat self g message context use_local =
        Raise (Exception "No AI provider available for chat")).
Proof.
  unfold AIRouter.chat. split; [|split].
  - intros -> ->. cbn. split; [done|]. split; [done|].
    intros r. apply chat_local_provider.
  - intros -> ->. split; [done|]. split.
    + intros r. apply chat_gemini_provider.
    + intros e Hg. unfold AIRouter._chat_gemini. by rewrite Hg.
  - by intros -> ->.
Qed.
End ChatFacts.

Section ImageFacts.

Import AIRouter.

Context {Image : Type}.

Implicit Types (self : AIRouter.t) (im : imagen Image).

(** X14. [generate_image] raises ["Image generation requires Gemini API"]
    without the cloud, whatever [use_local] says; with the cloud it asks
    the Imagen 3 model for one image and returns the first one it gets,
    tagged ["gemini_imagen"], and an empty image list raises an index
    error.  [use_local] is never looked at. *)
Theorem generate_image_needs_cloud self im prompt aspect_ratio use_local :
  (gemini_available self = false ->
   generate_image self im prompt aspect_ratio use_local =
     Raise (Exception "Image generation requires Gemini API"))
  /\ (gemini_available self = true ->
      forall first others,
        generate_images im "imagen-3.0-generate-001" prompt 1 aspect_ratio =
          Ok (first :: others) ->
        generate_image self im prompt aspect_ratio use_local =
          Ok (mk_image_response first "gemini_imagen"))
  /\ (gemini_available self = true ->
      generate_images im "imagen-3.0-generate-001" prompt 1 aspect_ratio =
        Ok [] ->
      generate_image self im prompt aspect_ratio use_local =
        Raise (BackendError "IndexError"))
  /\ generate_image self im prompt aspect_ratio use_local =
     generate_image self im prompt aspect_ratio (negb use_local).
Proof.
  unfold generate_image. repeat split.
  - by intros ->.
  - intros -> first others ->. done.
  - intros -> ->. done.
Qed.
End ImageFacts.

Section RoutingMore.

Import AIRouter.

Context {Features : Type}.
Context (cloud_prompt local_prompt : Features -> string).

Abbreviation analyze_video := (analyze_video cloud_prompt local_prompt).
Abbreviation gemini_call := (gemini_call cloud_prompt).
Abbreviation _analyze_with_local_llm := (_analyze_with_local_llm local_prompt).

Implicit Types (self : AIRouter.t) (g : genai) (features : Features).

(** X15. When the local route is forced or the cloud is not available,
    [analyze_video] returns at once what the local model path returns, or
    raises ["No AI provider available"] without a local model; the outcome
    does not depend on the cloud back end, on the video path or on the
    number of polls. *)
Theorem local_route_never_calls_cloud fuel self g video_path features force_local :
  force_local = true \/ gemini_available self = false ->
  analyze_video fuel self g video_path features force_local =
    Some (if local_llm_available self
          then _analyze_with_local_llm self features
          else Raise (Exception "No AI provider available")) /\
  (forall fuel' g' video_path',
      analyze_video fuel' self g' video_path' features force_local =
      analyze_video fuel self g video_path features force_local).
Proof.
  intros H. unfold AIRouter.analyze_video.
  assert (Hc : force_local || negb (gemini_available self) = true).
  { destruct H as [->| ->]; [done | by rewrite orb_true_r]. }
  rewrite Hc. split; [by destruct (local_llm_available self) | done].
Qed.

Lemma wait_stuck fuel g n :
  (forall k, get_file g k = Ok PROCESSING) ->
  wait_while_processing fuel g n PROCESSING = None.
Proof.
  intros Hs. revert n. induction fuel as [|fuel IH]; intros n; cbn; [done|].
  rewrite Hs. apply IH.
Qed.

(** X16. The wait for an uploaded file has no time limit: with a cloud
    whose file stays in PROCESSING, neither the cloud call nor
    [analyze_video] returns or raises, however many polls are looked at,
    and the local model is not tried. *)
Theorem stalled_upload_never_returns fuel self g video_path features :
  upload_file g video_path = Ok PROCESSING ->
  (forall k, get_file g k = Ok PROCESSING) ->
  gemini_available self = true ->
  gemini_call fuel g video_path features = None /\
  analyze_video fuel self g video_path features false = None.
Proof.
  intros Hu Hs Hg.
  assert (Hc : gemini_call fuel g video_path features = None).
  { unfold AIRouter.gemini_call. by rewrite Hu, wait_stuck. }
  split; [done|].
  unfold AIRouter.analyze_video, AIRouter._analyze_with_gemini.
  rewrite Hg. cbn. by rewrite Hc.
Qed.

(** X17. Without a local model, what the cloud call raises is what
    [analyze_video] raises: the original exception, not
    ["No AI provider available"]. *)
Theorem cloud_failure_without_local_propagates
    fuel self g video_path features e :
  gemini_available self = true ->
  local_llm_available self = false ->
  gemini_call fuel g video_path features = Some (Raise e) ->
  analyze_video fuel self g video_path features false = Some (Raise e).
Proof.
  intros Hg Hl Hc.
  unfold AIRouter.analyze_video, AIRouter._analyze_with_gemini.
  rewrite Hg. cbn. by rewrite Hc, Hl.
Qed.

End RoutingMore.

Section ParsingMore.

Import AIRouter.

Lemma from_first_open_app (a r : string) :
  ~ has_open a -> from_first_open (a +:+ "{" +:+ r) = Some r.
Proof.
  induction a as [|x a IH]; intros Hno; [done|].
  rewrite string_app_cons. cbn.
  destruct (Ascii.eqb_spec x "{"%char) as [->|Hx].
  - exfalso. apply Hno. by exists "", a.
  - apply IH. intros (a' & r' & ->). apply Hno.
    exists (String x a'), r'. by rewrite string_app_cons.
Qed.

Lemma upto_last_close_app (b c : string) :
  ~ has_close c -> upto_last_close (b +:+ "}" +:+ c) = Some (b +:+ "}").
Proof.
  intros Hno. apply upto_last_close_None in Hno.
  induction b as [|x b IH].
  - rewrite string_app_nil, string_app_cons, string_app_nil. cbn.
    by rewrite Hno.
  - change (String x b +:+ "}" +:+ c) with (String x (b +:+ "}" +:+ c)).
    change (String x b +:+ "}") with (String x (b +:+ "}")).
    cbn. by rewrite IH.
Qed.

(** X18. Text before the first opening brace and after the last closing
    brace is dropped: for [a] without opening brace and [c] without closing
    brace, both parsers decode [a{b}c] as [json.loads] decodes [{b}]. *)
Theorem prose_around_json_is_ignored (a b c : string) :
  ~ has_open a ->
  ~ has_close c ->
  search_braces (a +:+ "{" +:+ b +:+ "}" +:+ c) = Some ("{" +:+ b +:+ "}") /\
  _parse_gemini_response (a +:+ "{" +:+ b +:+ "}" +:+ c) =
    Json.loads ("{" +:+ b +:+ "}") /\
  _parse_local_response (a +:+ "{" +:+ b +:+ "}" +:+ c) =
    Json.loads ("{" +:+ b +:+ "}").
Proof.
  intros Ha Hc.
  assert (Hs : search_braces (a +:+ "{" +:+ b +:+ "}" +:+ c) =
               Some ("{" +:+ b +:+ "}")).
  { unfold search_braces. rewrite from_first_open_app by done.
    by rewrite upto_last_close_app. }
  unfold _parse_gemini_response, _parse_local_response. by rewrite Hs.
Qed.
End ParsingMore.

Lemma chat_routes_without_fallback_witness :
  let dumps := fun _ : Json.value => "{}" in
  let self := AIRouter.init true (Some prose_llama) in
  (true && AIRouter.local_llm_available self = true) /\
  AIRouter.chat dumps self chatty_cloud "Is the edit too slow?" None true =
    AIRouter._chat_local self "Is the edit too slow?" None /\
  AIRouter.chat dumps self failing_cloud "Is the edit too slow?" None false =
    Raise (BackendError "no content for a failed file").
Proof.
  cbn zeta. split; [reflexivity|]. split.
  - exact (proj1 (proj1 (chat_routes_without_fallback
      (fun _ : Json.value => "{}")
      (AIRouter.init true (Some prose_llama)) chatty_cloud
      "Is the edit too slow?" None true) eq_refl eq_refl)).
  - exact (proj2 (proj2 (proj1 (proj2 (chat_routes_without_fallback
      (fun _ : Json.value => "{}")
      (AIRouter.init true (Some prose_llama)) failing_cloud
      "Is the edit too slow?" None false)) eq_refl eq_refl)) _
      (fun _ => eq_refl)).
Defined.

Lemma generate_image_needs_cloud_witness :
  AIRouter.generate_image (AIRouter.init false (Some prose_llama))
      one_picture "A neon alley at night" "16:9" true =
    Raise (Exception "Image generation requires Gemini API") /\
  AIRouter.generate_image (AIRouter.init true None)
      one_picture "A neon alley at night" "16:9" false =
    Ok (AIRouter.mk_image_response "storyboard.png" "gemini_imagen").
Proof.
  split.
  - exact (proj1 (generate_image_needs_cloud
      (AIRouter.init false (Some prose_llama)) one_picture
      "A neon alley at night" "16:9" true) eq_refl).
  - exact (proj1 (proj2 (generate_image_needs_cloud
      (AIRouter.init true None) one_picture
      "A neon alley at night" "16:9" false)) eq_refl _ _ eq_refl).
Defined.

Lemma local_route_never_calls_cloud_witness :
  let self := AIRouter.init false (Some prose_llama) in
  let prompt := fun _ : unit => "Analyze this music video." in
  AIRouter.gemini_available self = false /\
  AIRouter.analyze_video prompt prompt 0 self stuck_cloud "clip.mp4" tt false
    = Some (AIRouter._analyze_with_local_llm prompt self tt).
Proof.
  cbn zeta. split; [reflexivity|].
  exact (proj1 (local_route_never_calls_cloud
    (fun _ : unit => "Analyze this music video.")
    (fun _ : unit => "Analyze this music video.")
    0 (AIRouter.init false (Some prose_llama)) stuck_cloud "clip.mp4" tt
    false (or_intror eq_refl))).
Defined.

Lemma stalled_upload_never_returns_witness :
  let self := AIRouter.init true (Some prose_llama) in
  let prompt := fun _ : unit => "Analyze this music video." in
  AIRouter.upload_file stuck_cloud "clip.mp4" = Ok AIRouter.PROCESSING /\
  AIRouter.gemini_available self = true /\
  AIRouter.analyze_video prompt prompt 1000 self stuck_cloud "clip.mp4" tt
    false = None.
Proof.
  cbn zeta. split; [reflexivity|]. split; [reflexivity|].
  exact (proj2 (stalled_upload_never_returns
    (fun _ : unit => "Analyze this music video.")
    (fun _ : unit => "Analyze this music video.")
    1000 (AIRouter.init true (Some prose_llama)) stuck_cloud "clip.mp4" tt
    eq_refl (fun _ => eq_refl) eq_refl)).
Defined.

Lemma cloud_failure_without_local_propagates_witness :
  let self := AIRouter.init true None in
  let prompt := fun _ : unit => "Analyze this music video." in
  AIRouter.local_llm_available self = false /\
  AIRouter.gemini_call prompt 5 failing_cloud "clip.mp4" tt =
    Some (Raise (Exception "Gemini video processing failed")) /\
  AIRouter.analyze_video prompt prompt 5 self failing_cloud "clip.mp4" tt
    false = Some (Raise (Exception "Gemini video processing failed")).
Proof.
  cbn zeta. split; [reflexivity|]. split; [reflexivity|].
  exact (cloud_failure_without_local_propagates
    (fun _ : unit => "Analyze this music video.")
    (fun _ : unit => "Analyze this music video.")
    5 (AIRouter.init true None) failing_cloud "clip.mp4" tt _
    eq_refl eq_refl eq_refl).
Defined.

Lemma prose_around_json_is_ignored_witness :
  AIRouter.search_braces ("Here is my critique: " +:+ "{" +:+ "" +:+ "}" +:+
                          " Hope it helps.") = Some ("{" +:+ "" +:+ "}") /\
  AIRouter._parse_gemini_response
    ("Here is my critique: " +:+ "{" +:+ "" +:+ "}" +:+ " Hope it helps.") =
    Ok (Json.Object []).
Proof.
  assert (Ha : ~ AIRouter.has_open "Here is my critique: ").
  { intros (a & r & H).
    exact (from_first_open_None "Here is my critique: " eq_refl a r H). }
  assert (Hc : ~ AIRouter.has_close " Hope it helps.").
  { by apply upto_last_close_None. }
  destruct (prose_around_json_is_ignored "Here is my critique: " ""
              " Hope it helps." Ha Hc) as (Hs & Hg & _).
  split; [exact Hs|]. rewrite Hg. reflexivity.
Defined.

(** ** The video processor, continued *)

Section VideoProcessorMore.

Import VideoProcessor.
Local Open Scope list_scope.

Context {Frame : Type}.
Context (gray : Frame -> list Z) (Laplacian_var : list Z -> Qc).

Abbreviation _detect_scenes := (_detect_scenes gray).
Abbreviation sample_loop := (sample_loop gray Laplacian_var).
Abbreviation _extract_features_sync :=
  (_extract_features_sync gray Laplacian_var).

Implicit Types (cap : VideoCapture (Frame := Frame)) (fps : Qc).

(** What the sampling loop appends for the indices it goes through. *)
Lemma sample_loop_spec cap fps (w h : Z) (idxs : list Z) :
  forall acc frames,
    sample_loop cap fps w h idxs acc = Ok frames ->
    exists new,
      frames = acc ++ new /\
      s_frame_index <$> new = List.filter (decodes cap) idxs /\
      Forall (fun s =>
                exists frame,
                  read_at cap (s_frame_index s) = Some frame /\
                  fps <> 0 /\
                  s_timestamp s = Z2Qc (s_frame_index s) / fps /\
                  brightness s = np_mean (gray frame) /\
                  motion_blur s = Laplacian_var (gray frame) /\
                  resolution s = str w +:+ "x" +:+ str h) new.
Proof.
  induction idxs as [|idx idxs IH]; intros acc frames; cbn.
  - intros [= <-]. exists []. by rewrite app_nil_r.
  - unfold decodes at 1. destruct (read_at cap idx) as [frame|] eqn:Hread.
    + unfold py_div. case_bool_decide as Hfps; [done|]. cbn.
      intros H. destruct (IH _ _ H) as (new & -> & Hidx & Hall).
      eexists (_ :: new). split; [by rewrite <- app_assoc|].
      split; [cbn; by rewrite Hidx|].
      constructor; [|done]. cbn. by exists frame.
    + apply IH.
Qed.

Lemma py_range_members (n step : Z) (idxs : list Z) :
  (0 < step)%Z ->
  py_range 0 n step = Ok idxs ->
  Forall (fun i => (0 <= i < n)%Z /\ (step | i)%Z) idxs.
Proof.
  intros Hstep. unfold py_range.
  destruct (Z.eqb_spec step 0) as [|_]; [lia|]. intros [= <-].
  apply Forall_forall. intros i Hi. apply in_map_iff in Hi as (k & <- & Hk).
  apply in_seq in Hk. unfold range_len in Hk.
  assert (Hs : (0 <? step)%Z = true) by (apply Z.ltb_lt; lia).
  rewrite Hs, andb_true_l in Hk.
  destruct (Z.ltb_spec 0 n) as [Hn|Hn].
  2:{ assert (Hs' : (step <? 0)%Z = false) by (apply Z.ltb_ge; lia).
      rewrite Hs', andb_false_l in Hk. cbn in Hk. lia. }
  replace (n - 0 - 1)%Z with (n - 1)%Z in Hk by lia.
  assert (Hq : (0 <= (n - 1) / step)%Z) by (apply Z.div_pos; lia).
  assert (Hk' : (Z.of_nat k <= (n - 1) / step)%Z) by lia.
  assert (Hm : (step * ((n - 1) / step) <= n - 1)%Z)
    by (apply Z.mul_div_le; lia).
  split; [nia|]. exists (Z.of_nat k). lia.
Qed.

(** X19. With a positive [frame_interval], the frame samples of a feature
    summary are, in order, the multiples of the interval below the frame
    count whose frame decodes; a frame that does not decode is skipped
    without an error.  Each sample carries its index, the timestamp
    index / fps (for a non-zero fps), and the brightness and motion blur
    of the frame decoded at that index. *)
Theorem sampled_frames_follow_the_interval
    cap librosa (extract_audio : bool) (frame_interval : Z) f :
  (0 < frame_interval)%Z ->
  _extract_features_sync cap librosa extract_audio true frame_interval
    = Ok f ->
  exists frames idxs,
    f_frames f = Some frames /\
    py_range 0 (CAP_PROP_FRAME_COUNT cap) frame_interval = Ok idxs /\
    s_frame_index <$> frames = List.filter (decodes cap) idxs /\
    Forall (fun s =>
              (0 <= s_frame_index s < CAP_PROP_FRAME_COUNT cap)%Z /\
              (frame_interval | s_frame_index s)%Z /\
              CAP_PROP_FPS cap <> 0 /\
              s_timestamp s = Z2Qc (s_frame_index s) / CAP_PROP_FPS cap /\
              exists frame,
                read_at cap (s_frame_index s) = Some frame /\
                brightness s = np_mean (gray frame) /\
                motion_blur s = Laplacian_var (gray frame)) frames.
Proof.
  intros Hstep.
  unfold VideoProcessor._extract_features_sync, extract_metadata.
  destruct (isOpened cap); cbn; [|done].
  rewrite duration_of_ok. cbn.
  destruct (py_range 0 (CAP_PROP_FRAME_COUNT cap) frame_interval)
    as [idxs|] eqn:Hr; cbn; [|done].
  destruct (VideoProcessor.sample_loop _ _ _ _ _ _ idxs [])
    as [frames|] eqn:Hl; cbn; [|done].
  destruct (VideoProcessor._detect_scenes _ _ _); cbn; [|done].
  intros [= <-]. cbn. exists frames, idxs.
  destruct (sample_loop_spec _ _ _ _ _ _ _ Hl) as (new & Hn & Hidx & Hall).
  cbn in Hn. subst new. repeat split; try done.
  pose proof (py_range_members _ _ _ Hstep Hr) as Hmem.
  apply Forall_forall. intros s Hs.
  assert (Hin : In (s_frame_index s) idxs).
  { assert (Hs' : In (s_frame_index s) (s_frame_index <$> frames))
      by (by apply in_map).
    rewrite Hidx in Hs'. by apply List.filter_In in Hs' as [? _]. }
  rewrite Forall_forall in Hmem. destruct (Hmem _ Hin) as [Hb Hd].
  rewrite Forall_forall in Hall.
  destruct (Hall _ Hs) as (frame & Hread & Hfps & Hts & Hbr & Hmb & _).
  repeat split; try done; try lia. by exists frame.
Qed.

(** X20. Audio extraction decides nothing but the ["audio"] entry: whether
    feature extraction raises, and its metadata, frames and scenes, are
    the same whatever ffmpeg and librosa do, and a failed audio extraction
    shows as the error entry of a summary that is otherwise complete. *)
Theorem audio_failure_never_fails_extraction
    cap librosa librosa' (extract_audio sample_frames : bool)
    (frame_interval : Z) :
  (forall e,
      _extract_features_sync cap librosa extract_audio sample_frames
                             frame_interval = Raise e ->
      _extract_features_sync cap librosa' extract_audio sample_frames
                             frame_interval = Raise e)
  /\ (forall f,
        _extract_features_sync cap librosa extract_audio sample_frames
                               frame_interval = Ok f ->
        f_audio f = (if extract_audio
                     then Some (match librosa with
                                | Ok p => Audio p
                                | Raise e => AudioError e
                                end)
                     else None) /\
        exists f',
          _extract_features_sync cap librosa' extract_audio sample_frames
                                 frame_interval = Ok f' /\
          f_metadata f' = f_metadata f /\ f_frames f' = f_frames f /\
          f_scenes f' = f_scenes f).
Proof.
  unfold VideoProcessor._extract_features_sync.
  destruct (negb (isOpened cap)); [by split|].
  destruct (extract_metadata cap) as [meta|]; cbn; [|by split].
  destruct (if sample_frames then _ else _) as [frames|]; cbn; [|by split].
  destruct (VideoProcessor._detect_scenes _ _ _) as [scenes|]; cbn;
    [|by split].
  split; [done|]. intros f [= <-]. cbn. split.
  - by destruct extract_audio, librosa.
  - by eexists.
Qed.

(** X21. Edge cases of [frame_interval] when sampling an opened video: 0
    raises [range]'s ValueError, whatever the frame rate; a negative
    interval (frame count not negative) samples nothing; a positive
    interval of at least the frame count samples frame 0 at most. *)
Theorem frame_interval_edge_cases cap librosa (extract_audio : bool) :
  isOpened cap = true ->
  _extract_features_sync cap librosa extract_audio true 0 =
    Raise (ValueError "range() arg 3 must not be zero") /\
  (forall frame_interval f,
      (frame_interval < 0)%Z ->
      (0 <= CAP_PROP_FRAME_COUNT cap)%Z ->
      _extract_features_sync cap librosa extract_audio true frame_interval
        = Ok f ->
      f_frames f = Some []) /\
  (forall frame_interval f,
      (0 < frame_interval)%Z ->
      (CAP_PROP_FRAME_COUNT cap <= frame_interval)%Z ->
      _extract_features_sync cap librosa extract_audio true frame_interval
        = Ok f ->
      exists frames, f_frames f = Some frames /\ (length frames <= 1)%nat /\
        forall s, s ∈ frames -> s_frame_index s = 0%Z).
Proof.
  intros Hopen.
  unfold VideoProcessor._extract_features_sync, extract_metadata.
  rewrite Hopen, duration_of_ok. cbn. split; [done|]. split.
  - intros fi f Hneg Hfc. unfold py_range.
    destruct (Z.eqb_spec fi 0) as [|_]; [lia|]. unfold range_len.
    assert (H1 : (0 <? fi)%Z = false) by (apply Z.ltb_ge; lia).
    assert (H2 : (CAP_PROP_FRAME_COUNT cap <? 0)%Z = false)
      by (apply Z.ltb_ge; lia).
    rewrite H1, H2, andb_false_r. cbn.
    destruct (VideoProcessor._detect_scenes _ _ _); cbn; [|done].
    by intros [= <-].
  - intros fi f Hp Hbig. unfold py_range.
    destruct (Z.eqb_spec fi 0) as [->|Hnz]; cbn; [done|].
    assert (Hlen : (range_len 0 (CAP_PROP_FRAME_COUNT cap) fi <= 1)%nat).
    { unfold range_len.
      assert (Hs : (0 <? fi)%Z = true) by (apply Z.ltb_lt; lia).
      assert (Hs' : (fi <? 0)%Z = false) by (apply Z.ltb_ge; lia).
      rewrite Hs, Hs', andb_true_l, andb_false_l.
      destruct (Z.ltb_spec 0 (CAP_PROP_FRAME_COUNT cap)) as [Hn|Hn];
        [|lia].
      replace (CAP_PROP_FRAME_COUNT cap - 0 - 1)%Z
        with (CAP_PROP_FRAME_COUNT cap - 1)%Z by lia.
      rewrite Z.div_small by lia. cbn. lia. }
    destruct (range_len 0 (CAP_PROP_FRAME_COUNT cap) fi) as [|[|n]];
      [| |lia]; cbn.
    + destruct (VideoProcessor._detect_scenes _ _ _); cbn; [|done].
      intros [= <-]. cbn. exists []. split; [done|]. split; [cbn; lia|].
      intros s Hs. by apply elem_of_nil in Hs.
    + change (0 + Z.of_nat 0 * fi)%Z with 0%Z.
      destruct (read_at cap 0) as [frame|]; cbn.
      * destruct (py_div (Z2Qc 0) (CAP_PROP_FPS cap)); cbn; [|done].
        destruct (VideoProcessor._detect_scenes _ _ _); cbn; [|done].
        intros [= <-]. cbn. eexists. split; [reflexivity|].
        split; [cbn; lia|].
        intros s Hs. apply list_elem_of_singleton in Hs. by subst s.
      * destruct (VideoProcessor._detect_scenes _ _ _); cbn; [|done].
        intros [= <-]. cbn. exists []. split; [done|]. split; [cbn; lia|].
        intros s Hs. by apply elem_of_nil in Hs.
Qed.

Lemma filter_seq_sorted (p : nat -> bool) (n : nat) : forall a,
  StronglySorted Z.lt (Z.of_nat <$> List.filter p (seq a n)).
Proof.
  induction n as [|n IH]; intros a; cbn; [constructor|].
  destruct (p a); cbn; [|apply IH].
  constructor; [apply IH|].
  apply Forall_forall. intros z Hz.
  apply in_map_iff in Hz as (k & <- & Hk).
  apply List.filter_In in Hk as [Hk _]. apply in_seq in Hk. lia.
Qed.

Lemma cut_positions_short (grays : list (list Z)) :
  (length (cut_positions grays) <= length grays - 1)%nat.
Proof.
  unfold cut_positions. destruct (length grays) as [|n]; cbn; [done|].
  rewrite Nat.sub_0_r.
  etransitivity; [apply List.filter_length_le|]. by rewrite length_seq.
Qed.

(** X22. The cuts [_detect_scenes] returns (opened video, frames of one
    size) come in strictly increasing frame order, never at frame 0 nor
    beyond the last frame read, each with an intensity above 30 and the
    timestamp index / fps; there are at most (frames - 1) of them. *)
Theorem scene_cuts_are_ordered cap fps scenes :
  isOpened cap = true ->
  same_shape (gray <$> read_all cap) ->
  _detect_scenes cap fps = Ok scenes ->
  StronglySorted Z.lt (frame_index <$> scenes) /\
  Forall (fun sc =>
            (1 <= frame_index sc < Z.of_nat (length (read_all cap)))%Z /\
            scene_threshold < intensity sc /\
            fps <> 0 /\
            timestamp sc = Z2Qc (frame_index sc) / fps) scenes /\
  (length scenes <= length (read_all cap) - 1)%nat.
Proof.
  intros Hopen Hshape. rewrite detect_scenes_spec by done.
  unfold scan_outcome.
  pose proof (cut_positions_short (gray <$> read_all cap)) as Hshort.
  rewrite length_fmap in Hshort.
  assert (Hcuts : forall i, In i (cut_positions (gray <$> read_all cap)) ->
            is_cut (gray <$> read_all cap) i = true)
    by (intros i; apply cut_positions_spec).
  assert (Hsorted : StronglySorted Z.lt
            (Z.of_nat <$> cut_positions (gray <$> read_all cap)))
    by apply filter_seq_sorted.
  destruct (cut_positions (gray <$> read_all cap)) as [|i0 l] eqn:E.
  { intros [= <-]. cbn. repeat split; [constructor | constructor | lia]. }
  case_bool_decide as Hfps; [done|]. intros Hs.
  assert (Hs' : scenes = [] ++ (cut_at fps (gray <$> read_all cap) <$> i0 :: l))
    by congruence.
  clear Hs. subst scenes.
  change (([] ++ (cut_at fps (gray <$> read_all cap) <$> i0 :: l)))
    with (cut_at fps (gray <$> read_all cap) <$> i0 :: l).
  split; [by rewrite <- list_fmap_compose|]. split.
  - apply Forall_forall. intros sc Hsc.
    apply in_map_iff in Hsc as (i & <- & Hi).
    apply Hcuts, is_cut_spec in Hi as (j & prev & cur & -> & Hp & Hc & Hlt).
    unfold cut_at. cbn [frame_index intensity timestamp].
    replace (S j - 1)%nat with j by lia. rewrite Hp, Hc. cbn [default].
    apply lookup_lt_Some in Hc. rewrite length_fmap in Hc.
    repeat split; try done; lia.
  - by rewrite length_fmap.
Qed.

End VideoProcessorMore.

Section PreprocessFacts.

Import VideoProcessor.
Local Open Scope list_scope.

Context {Frame : Type}.
Context (jpeg_base64 : Frame -> result string).

Abbreviation _preprocess_sync := (_preprocess_sync jpeg_base64).

Implicit Types (cap : VideoCapture (Frame := Frame)) (tools : media_tools).

(** The size test, in bytes. *)
Lemma over_limit_bytes (bytes max_size_mb : Z) :
  Z2Qc max_size_mb < Z2Qc bytes / Z2Qc (1024 * 1024) <->
  (max_size_mb * 1048576 < bytes)%Z.
Proof.
  unfold Z2Qc. qc_to_q. change (1024 * 1024)%Z with 1048576%Z.
  unfold Qdiv. unfold Qlt, Qinv, Qmult, inject_Z. cbn. lia.
Qed.

(** X23. [_preprocess_sync] compresses only a file strictly larger than
    [max_size_mb] MiB: when compression is off or the size is at most
    [max_size_mb * 1048576] bytes, the outcome does not involve ffmpeg at
    all; it reports the size, [compressed = False], no compressed size or
    path, and the thumbnail of the first frame ([None] when no frame
    decodes), and raises only what the thumbnail encoder raises. *)
Theorem compression_only_above_the_limit
    tools cap (compress : bool) (max_size_mb bytes : Z) :
  st_size tools = Ok bytes ->
  compress = false \/ (bytes <= max_size_mb * 1048576)%Z ->
  _preprocess_sync tools cap compress max_size_mb =
    match (if isOpened cap then head (read_all cap) else None) with
    | Some frame =>
        match jpeg_base64 frame with
        | Ok encoded =>
            Ok (mk_preprocess_result (Z2Qc bytes / Z2Qc (1024 * 1024)) false
                                     (Some encoded) None None)
        | Raise e => Raise e
        end
    | None =>
        Ok (mk_preprocess_result (Z2Qc bytes / Z2Qc (1024 * 1024)) false
                                 None None None)
    end.
Proof.
  intros Hsize Hsmall. unfold VideoProcessor._preprocess_sync.
  rewrite Hsize. cbn.
  assert (Hc : compress &&
               bool_decide (Z2Qc max_size_mb <
                            Z2Qc bytes / Z2Qc (1024 * 1024)) = false).
  { destruct Hsmall as [->|Hle]; [done|].
    rewrite bool_decide_false; [by rewrite andb_false_r|].
    rewrite over_limit_bytes. lia. }
  rewrite Hc. cbn.
  destruct (if isOpened cap then _ else _) as [frame|]; cbn; [|done].
  by destruct (jpeg_base64 frame).
Qed.

(** X24. When a file over the limit is to be compressed, a reported
    duration of 0 raises a division-by-zero error, and what the probe or
    the ffmpeg run raise is raised: no result is returned, not even the
    thumbnail. *)
Theorem compression_needs_a_duration
    tools cap (max_size_mb bytes : Z) :
  st_size tools = Ok bytes ->
  (max_size_mb * 1048576 < bytes)%Z ->
  (probe_duration tools = Ok 0 ->
   _preprocess_sync tools cap true max_size_mb = Raise ZeroDivisionError) /\
  (forall e, probe_duration tools = Raise e ->
             _preprocess_sync tools cap true max_size_mb = Raise e) /\
  (forall duration e,
      probe_duration tools = Ok duration -> duration <> 0 ->
      ffmpeg_run tools (with_stem_compressed tools)
        (str (py_int (Z2Qc (max_size_mb * 8 * 1024) / duration)) +:+ "k")
        = Raise e ->
      _preprocess_sync tools cap true max_size_mb = Raise e).
Proof.
  intros Hsize Hbig. unfold VideoProcessor._preprocess_sync.
  rewrite Hsize. cbn.
  rewrite bool_decide_true by (by apply over_limit_bytes).
  split; [|split].
  - intros ->. cbn. unfold py_div. by rewrite bool_decide_true.
  - by intros e ->.
  - intros duration e -> Hd Hrun. cbn. unfold py_div.
    rewrite bool_decide_false by done. cbn. by rewrite Hrun.
Qed.

End PreprocessFacts.

Lemma sampled_frames_follow_the_interval_witness :
  (0 < 1)%Z /\
  exists f frames,
    VideoProcessor._extract_features_sync luma flat_variance two_frame_clip
      silent_audio true true 1 = Ok f /\
    VideoProcessor.f_frames f = Some frames /\
    VideoProcessor.s_frame_index <$> frames = [0; 1]%Z.
Proof.
  assert (Hstep : (0 < 1)%Z) by lia.
  split; [exact Hstep|].
  destruct (VideoProcessor._extract_features_sync luma flat_variance
              two_frame_clip silent_audio true true 1) as [f|e] eqn:Hrun.
  - destruct (sampled_frames_follow_the_interval luma flat_variance
                two_frame_clip silent_audio true 1 f Hstep Hrun)
      as (frames & idxs & Hf & Hr & Hidx & _).
    exists f, frames. split; [reflexivity|]. split; [exact Hf|].
    rewrite Hidx. vm_compute in Hr. injection Hr as <-. reflexivity.
  - exfalso. vm_compute in Hrun. discriminate Hrun.
Defined.

Lemma audio_failure_never_fails_extraction_witness :
  exists f,
    VideoProcessor._extract_features_sync luma flat_variance two_frame_clip
      silent_audio true true 30 = Ok f /\
    VideoProcessor.f_audio f =
      Some (VideoProcessor.AudioError
              (BackendError "ffmpeg: no audio stream")).
Proof.
  destruct (VideoProcessor._extract_features_sync luma flat_variance
              two_frame_clip silent_audio true true 30) as [f|e] eqn:Hrun.
  - exists f. split; [reflexivity|].
    exact (proj1 (proj2 (audio_failure_never_fails_extraction luma
      flat_variance two_frame_clip silent_audio silent_audio true true 30)
      f Hrun)).
  - exfalso. vm_compute in Hrun. discriminate Hrun.
Defined.

Lemma frame_interval_edge_cases_witness :
  VideoProcessor.isOpened two_frame_clip = true /\
  VideoProcessor._extract_features_sync luma flat_variance two_frame_clip
    silent_audio true true 0 =
    Raise (ValueError "range() arg 3 must not be zero").
Proof.
  split; [reflexivity|].
  exact (proj1 (frame_interval_edge_cases luma flat_variance two_frame_clip
                  silent_audio true eq_refl)).
Defined.

Lemma scene_cuts_are_ordered_witness :
  VideoProcessor.isOpened two_frame_clip = true /\
  VideoProcessor.same_shape
    (luma <$> VideoProcessor.read_all two_frame_clip) /\
  exists scenes,
    VideoProcessor._detect_scenes luma two_frame_clip (Z2Qc 30) = Ok scenes /\
    VideoProcessor.frame_index <$> scenes = [1%Z] /\
    StronglySorted Z.lt (VideoProcessor.frame_index <$> scenes).
Proof.
  split; [reflexivity|]. split; [exact two_frame_same_shape|].
  destruct (VideoProcessor._detect_scenes luma two_frame_clip (Z2Qc 30))
    as [scenes|e] eqn:Hrun.
  - exists scenes. split; [reflexivity|]. split.
    + vm_compute in Hrun. injection Hrun as <-. reflexivity.
    + exact (proj1 (scene_cuts_are_ordered luma two_frame_clip (Z2Qc 30)
                      scenes eq_refl two_frame_same_shape Hrun)).
  - exfalso. vm_compute in Hrun. discriminate Hrun.
Defined.

Lemma compression_only_above_the_limit_witness :
  VideoProcessor.st_size at_the_limit = Ok 52428800%Z /\
  (52428800 <= 50 * 1048576)%Z /\
  VideoProcessor._preprocess_sync jpeg_stub at_the_limit two_frame_clip
    true 50 =
    Ok (VideoProcessor.mk_preprocess_result
          (Z2Qc 52428800 / Z2Qc (1024 * 1024)) false
          (Some "/9j/4AAQSkZJRg==") None None).
Proof.
  assert (Hle : (52428800 <= 50 * 1048576)%Z) by lia.
  split; [reflexivity|]. split; [exact Hle|].
  exact (compression_only_above_the_limit jpeg_stub at_the_limit
           two_frame_clip true 50 52428800 eq_refl (or_intror Hle)).
Defined.

Lemma compression_needs_a_duration_witness :
  VideoProcessor.st_size zero_length = Ok 104857600%Z /\
  (50 * 1048576 < 104857600)%Z /\
  VideoProcessor.probe_duration zero_length = Ok 0 /\
  VideoProcessor._preprocess_sync jpeg_stub zero_length two_frame_clip
    true 50 = Raise ZeroDivisionError.
Proof.
  assert (Hlt : (50 * 1048576 < 104857600)%Z) by lia.
  split; [reflexivity|]. split; [exact Hlt|]. split; [reflexivity|].
  exact (proj1 (compression_needs_a_duration jpeg_stub zero_length
                  two_frame_clip 50 104857600 eq_refl Hlt) eq_refl).
Defined.

(** ** The request handlers *)

Section MainFacts.

Import Main.

Context {Frame Image : Type}.
Context (gray : Frame -> list Z) (Laplacian_var : list Z -> Qc).
Context (cloud_prompt local_prompt : VideoProcessor.features -> string).
Context (sha256_hexdigest : string -> string).
Context (json_dumps : Json.value -> string).

Abbreviation analyze_uncached :=
  (analyze_uncached (Image := Image) gray Laplacian_var cloud_prompt
                    local_prompt).
Abbreviation analyze_video :=
  (analyze_video (Image := Image) gray Laplacian_var cloud_prompt local_prompt
                 sha256_hexdigest).
Abbreviation chat := (chat (Image := Image) json_dumps).
Abbreviation cache_key file :=
  ("analysis:" +:+ sha256_hexdigest (content file)).

Implicit Types (sur : surroundings Image) (file : upload Frame)
               (sv : services).

Lemma record_cache_hit_ok e o w :
  CostTracker.write_ok e = true ->
  exists w', CostTracker.record_cache_hit e o w = (Ok tt, w') /\
             CostTracker.self w' = CostTracker.add_cache_hit (CostTracker.self w).
Proof.
  intros Hw. unfold CostTracker.record_cache_hit, CostTracker._save. cbn.
  rewrite Hw. by eexists.
Qed.

Lemma record_analysis_ok e p m n w :
  CostTracker.write_ok e = true ->
  exists w', CostTracker.record_analysis e p m n w =
               (Ok (CostTracker.analysis_cost p m n), w').
Proof.
  intros Hw. unfold CostTracker.record_analysis, CostTracker._save. cbn.
  rewrite Hw. by eexists.
Qed.



(** A request that finds a truthy value under its cache key. *)
Lemma analyze_video_cache_hit
    sur file (force_local : bool) sv (hit : Json.value) :
  write_bytes_ok file = true ->
  CacheManager.store_raises (at_get sur) = false ->
  CacheManager.cache_get (CacheManager.now (at_get sur)) (cache_key file)
    (CacheManager.cache (cache_manager sv)) = Some hit ->
  Json.truthy hit = true ->
  CostTracker.write_ok (ledger sur) = true ->
  analyze_video sur file true force_local sv =
    Some (Response (CachedAnalysis hit),
          mk_services
            (CacheManager.mk (CacheManager.cache (cache_manager sv))
               (CacheManager.count_hit
                  (CacheManager.self_stats (cache_manager sv))))
            (ai_router sv)
            (CostTracker.record_cache_hit (ledger sur) "analysis"
               (cost_tracker sv)).2).
Proof.
  intros Hwrite Hstore Hget Htruthy Hledger. unfold Main.analyze_video.
  rewrite Hwrite. cbn. unfold CacheManager.get.
  rewrite Hstore, Hget. cbn. rewrite Htruthy.
  by destruct (record_cache_hit_ok (ledger sur) "analysis" (cost_tracker sv)
                 Hledger) as (w' & -> & _).
Qed.


Lemma analyze_uncached_fresh sur file key (force_local : bool) sv0 a p c fc sv1 :
  analyze_uncached sur file key force_local sv0 =
    Some (Response (FreshAnalysis a p c fc), sv1) ->
  cache_manager sv1 =
    (CacheManager.set (at_set sur) key (to_python a) (Some 604800%Z)
                      (cache_manager sv0)).2.
Proof.
  unfold Main.analyze_uncached.
  destruct (VideoProcessor._extract_features_sync _ _ _ _ _ _ _); [|done].
  destruct (AIRouter.analyze_video _ _ _ _ _ _ _ _) as [[r|]|]; [|done|done].
  destruct (CostTracker.record_analysis _ _ _ _ _) as [[cost|] w]; [|done].
  change (86400 * 7)%Z with 604800%Z.
  destruct (CacheManager.set _ _ _ _ _) as [b m] eqn:E.
  intros [= <- <- <- <- <-]. cbn. by rewrite E.
Qed.

Lemma analyze_video_fresh sur file (use_cache force_local : bool) sv a p c fc sv1 :
  analyze_video sur file use_cache force_local sv =
    Some (Response (FreshAnalysis a p c fc), sv1) ->
  exists sv0,
    analyze_uncached sur file (cache_key file) force_local sv0 =
      Some (Response (FreshAnalysis a p c fc), sv1).
Proof.
  unfold Main.analyze_video.
  destruct (negb (write_bytes_ok file)); [done|].
  destruct use_cache; [|by eexists].
  destruct (CacheManager.get _ _ _) as [[hit|] m]; [|by eexists].
  destruct (truthy (Some hit)); [|by eexists].
  by destruct (CostTracker.record_cache_hit _ _ _) as [[|] ?].
Qed.

Lemma truthy_to_python (a : Json.value) :
  Json.truthy a = true -> to_python a = Some a.
Proof. by destruct a. Qed.

(** X26. Round trip through the cache: once a request has returned a fresh,
    non-empty analysis and the store has accepted it, a request with the
    same bytes made less than seven days (604800 s) after that write, with
    the store answering, is served that very analysis from the cache; the
    ledger counts one more cache hit, and its total and API calls stay. *)
Theorem repeated_upload_is_served_from_cache
    sur1 file1 (use_cache1 force_local1 : bool) sv a p c fc sv1
    sur2 file2 (force_local2 : bool) :
  analyze_video sur1 file1 use_cache1 force_local1 sv =
    Some (Response (FreshAnalysis a p c fc), sv1) ->
  CacheManager.store_raises (at_set sur1) = false ->
  Json.truthy a = true ->
  content file2 = content file1 ->
  write_bytes_ok file2 = true ->
  CacheManager.store_raises (at_get sur2) = false ->
  CacheManager.now (at_get sur2) <
    CacheManager.now (at_set sur1) + Z2Qc 604800 ->
  CostTracker.write_ok (ledger sur2) = true ->
  exists sv2,
    analyze_video sur2 file2 true force_local2 sv1 =
      Some (Response (CachedAnalysis a), sv2) /\
    CostTracker.total_cost (CostTracker.self (cost_tracker sv2)) =
      CostTracker.total_cost (CostTracker.self (cost_tracker sv1)) /\
    CostTracker.api_calls (CostTracker.self (cost_tracker sv2)) =
      CostTracker.api_calls (CostTracker.self (cost_tracker sv1)) /\
    CostTracker.cache_hits (CostTracker.self (cost_tracker sv2)) =
      (CostTracker.cache_hits (CostTracker.self (cost_tracker sv1)) + 1)%Z.
Proof.
  intros Hfirst Hset Htruthy Hcontent Hwrite Hget Hfresh Hledger.
  apply analyze_video_fresh in Hfirst as [sv0 Hfirst].
  apply analyze_uncached_fresh in Hfirst.
  assert (Hcached :
    CacheManager.cache_get (CacheManager.now (at_get sur2)) (cache_key file2)
      (CacheManager.cache (cache_manager sv1)) = Some a).
  { rewrite Hfirst, Hcontent. unfold CacheManager.set. rewrite Hset. cbn.
    unfold CacheManager.cache_get, CacheManager.cache_set.
    rewrite lookup_insert_eq. unfold CacheManager.live. cbn.
    rewrite bool_decide_true by done. by apply truthy_to_python. }
  eexists. split; [by apply analyze_video_cache_hit|]. cbn.
  by rewrite record_cache_hit_self.
Qed.

(** X27. A cached analysis that is empty (an empty object, say) is not
    served: the cache manager counts the read as a hit, but the handler
    goes on exactly as a request that does not use the cache, so the video
    is analysed and billed again. *)
Theorem empty_cached_analysis_is_recomputed
    sur file (force_local : bool) sv (hit : Json.value) :
  write_bytes_ok file = true ->
  CacheManager.store_raises (at_get sur) = false ->
  CacheManager.cache_get (CacheManager.now (at_get sur)) (cache_key file)
    (CacheManager.cache (cache_manager sv)) = Some hit ->
  Json.truthy hit = false ->
  analyze_video sur file true force_local sv =
  analyze_video sur file false force_local
    (mk_services
       (CacheManager.mk (CacheManager.cache (cache_manager sv))
          (CacheManager.count_hit
             (CacheManager.self_stats (cache_manager sv))))
       (ai_router sv) (cost_tracker sv)).
Proof.
  intros Hwrite Hstore Hget Hfalsy. unfold Main.analyze_video.
  rewrite Hwrite. cbn. unfold CacheManager.get.
  rewrite Hstore, Hget. cbn. by rewrite Hfalsy.
Qed.


(** X29. The image handler refuses without the cloud and bills nothing;
    an image the cloud returns is billed a flat 0.02 under
    ["image_generation"], adding that amount to the total and one API
    call, and the cache is not touched. *)
Theorem generated_image_is_billed_flat
    sur (request : image_request) sv :
  (AIRouter.gemini_available (ai_router sv) = false ->
   generate_image sur request sv =
     (HTTPException 500 (Exception "Image generation requires Gemini API"),
      sv))
  /\ (forall first others,
        AIRouter.gemini_available (ai_router sv) = true ->
        AIRouter.generate_images (image_model sur) "imagen-3.0-generate-001"
          (prompt request) 1 (aspect_ratio request) = Ok (first :: others) ->
        CostTracker.write_ok (ledger sur) = true ->
        exists sv',
          generate_image sur request sv =
            (Response (first, "gemini_imagen", dec 2 100), sv') /\
          CostTracker.total_cost (CostTracker.self (cost_tracker sv')) =
            CostTracker.total_cost (CostTracker.self (cost_tracker sv))
            + dec 2 100 /\
          CostTracker.api_calls (CostTracker.self (cost_tracker sv')) =
            (CostTracker.api_calls (CostTracker.self (cost_tracker sv)) + 1)%Z
          /\
          CostTracker.breakdown (CostTracker.self (cost_tracker sv'))
            !! "image_generation" =
            Some (default 0 (CostTracker.breakdown
                               (CostTracker.self (cost_tracker sv))
                             !! "image_generation") + dec 2 100) /\
          cache_manager sv' = cache_manager sv).
Proof.
  unfold Main.generate_image, AIRouter.generate_image. split.
  - by intros ->.
  - intros first others -> -> Hledger. cbn.
    unfold CostTracker.record_image_generation, CostTracker._save. cbn.
    rewrite Hledger. cbn. eexists. split; [reflexivity|]. cbn.
    repeat split. by rewrite lookup_insert_eq.
Qed.

(** X30. A chat asked of the local model, with the local model available
    and answering, returns its answer at cost 0: the ledger counts an API
    call and keeps its total, the store is left as it was, and the reply
    depends neither on the cloud nor on what the cache holds for the
    analysis id. *)
Theorem local_chat_is_free
    sur (request : chat_request) sv llm answer :
  use_local request = true ->
  AIRouter.local_llm_available (ai_router sv) = true ->
  AIRouter.local_llm (ai_router sv) = Some llm ->
  AIRouter.create_chat_completion llm
    "You are a helpful creative director assistant." (message request) 512
    = Ok answer ->
  CostTracker.write_ok (ledger sur) = true ->
  (exists sv',
      chat sur request sv =
        (Response (mk_chat_reply (AIRouter.content answer) "local_llm" 0),
         sv') /\
      CostTracker.total_cost (CostTracker.self (cost_tracker sv')) =
        CostTracker.total_cost (CostTracker.self (cost_tracker sv)) /\
      CostTracker.api_calls (CostTracker.self (cost_tracker sv')) =
        (CostTracker.api_calls (CostTracker.self (cost_tracker sv)) + 1)%Z /\
      CacheManager.cache (cache_manager sv') =
        CacheManager.cache (cache_manager sv))
  /\ (forall sur' manager,
        ledger sur' = ledger sur ->
        (chat sur' request
              (mk_services manager (ai_router sv) (cost_tracker sv))).1 =
        (chat sur request sv).1).
Proof.
  intros Hlocal Havail Hllm Hanswer Hledger.
  assert (Hrun : forall sur' manager,
    ledger sur' = ledger sur ->
    exists manager',
      chat sur' request
           (mk_services manager (ai_router sv) (cost_tracker sv)) =
        (Response (mk_chat_reply (AIRouter.content answer) "local_llm" 0),
         mk_services manager' (ai_router sv)
           (CostTracker.record_chat (ledger sur) "local_llm"
              (AIRouter.total_tokens answer) (cost_tracker sv)).2) /\
      CacheManager.cache manager' = CacheManager.cache manager).
  { intros sur' manager Hl. unfold Main.chat. cbn.
    set (lookup := match analysis_id request with
                   | Some id => _
                   | None => _
                   end).
    assert (Hlookup : CacheManager.cache lookup.2 = CacheManager.cache manager).
    { unfold lookup. destruct (analysis_id request) as [id|]; [|done].
      destruct (negb (String.eqb id "")); [|done].
      unfold CacheManager.get.
      destruct (CacheManager.store_raises (at_get sur')); [done|].
      by destruct (CacheManager.cache_get _ _ _). }
    destruct lookup as [context manager']. cbn in Hlookup.
    exists manager'. split; [|done].
    unfold AIRouter.chat, AIRouter._chat_local.
    rewrite Hlocal, Havail, Hllm. cbn. rewrite Hanswer. cbn. rewrite Hl.
    unfold CostTracker.record_chat, CostTracker._save. cbn.
    by rewrite Hledger. }
  split.
  - destruct (Hrun sur (cache_manager sv) eq_refl) as (manager' & Hc & Hm).
    destruct sv as [manager router tracker]. cbn in *.
    eexists. split; [exact Hc|]. cbn. rewrite record_chat_self. cbn.
    split; [apply Qcplus_0_r | done].
  - intros sur' manager Hl.
    destruct (Hrun sur' manager Hl) as (m1 & -> & _).
    destruct (Hrun sur (cache_manager sv) eq_refl) as (m2 & Hc & _).
    destruct sv as [manager0 router tracker]. cbn in *. by rewrite Hc.
Qed.

End MainFacts.

(** *** On the sample requests *)


Lemma repeated_upload_is_served_from_cache_witness :
  exists a p c fc sv1 sv2,
    Main.analyze_video luma flat_variance fixed_prompt fixed_prompt digest
      quiet_hour clip_upload true false local_only =
      Some (Main.Response (Main.FreshAnalysis a p c fc), sv1) /\
    Json.truthy a = true /\
    CacheManager.now (Main.at_get next_day) <
      CacheManager.now (Main.at_set quiet_hour) + Z2Qc 604800 /\
    Main.analyze_video luma flat_variance fixed_prompt fixed_prompt digest
      next_day clip_upload true false sv1 =
      Some (Main.Response (Main.CachedAnalysis a), sv2) /\
    CostTracker.cache_hits (CostTracker.self (Main.cost_tracker sv2)) =
      (CostTracker.cache_hits (CostTracker.self (Main.cost_tracker sv1)) + 1)%Z.
Proof.
  assert (Hfirst : exists a p c fc sv1,
    Main.analyze_video luma flat_variance fixed_prompt fixed_prompt digest
      quiet_hour clip_upload true false local_only =
      Some (Main.Response (Main.FreshAnalysis a p c fc), sv1) /\
    Json.truthy a = true).
  { do 5 eexists. split; [vm_compute; reflexivity | reflexivity]. }
  destruct Hfirst as (a & p & c & fc & sv1 & Hrun & Htruthy).
  assert (Hclock : CacheManager.now (Main.at_get next_day) <
                   CacheManager.now (Main.at_set quiet_hour) + Z2Qc 604800)
    by qc_compare.
  destruct (repeated_upload_is_served_from_cache
              luma flat_variance fixed_prompt fixed_prompt digest
              quiet_hour clip_upload true false local_only a p c fc sv1
              next_day clip_upload false
              Hrun eq_refl Htruthy eq_refl eq_refl eq_refl Hclock eq_refl)
    as (sv2 & Hsecond & _ & _ & Hhits).
  exists a, p, c, fc, sv1, sv2.
  split; [exact Hrun|]. split; [exact Htruthy|]. split; [exact Hclock|].
  split; [exact Hsecond | exact Hhits].
Defined.

Lemma empty_cached_analysis_is_recomputed_witness :
  Json.truthy (Json.Object []) = false /\
  Main.analyze_video luma flat_variance fixed_prompt fixed_prompt digest
    quiet_hour clip_upload true false hollow =
    Some (Main.HTTPException (A := Main.analyze_response) 500
            (Exception "No AI provider available"),
          Main.mk_services
            (CacheManager.mk
               (CacheManager.cache (Main.cache_manager hollow))
               (CacheManager.mk_stats 1 0 0))
            (Main.ai_router hollow) (Main.cost_tracker hollow)).
Proof.
  split; [reflexivity|].
  rewrite (empty_cached_analysis_is_recomputed
             luma flat_variance fixed_prompt fixed_prompt digest
             quiet_hour clip_upload false hollow (Json.Object [])
             eq_refl eq_refl eq_refl eq_refl).
  vm_compute. reflexivity.
Defined.


Lemma generated_image_is_billed_flat_witness :
  AIRouter.gemini_available (Main.ai_router cloud_only) = true /\
  CostTracker.write_ok (Main.ledger quiet_hour) = true /\
  exists sv',
    Main.generate_image quiet_hour
      (Main.mk_image_request "A neon alley at night" "16:9" false)
      cloud_only =
      (Main.Response ("storyboard.png", "gemini_imagen", dec 2 100), sv') /\
    CostTracker.api_calls (CostTracker.self (Main.cost_tracker sv')) = 1%Z.
Proof.
  split; [reflexivity|]. split; [reflexivity|].
  destruct (proj2 (generated_image_is_billed_flat
              quiet_hour
              (Main.mk_image_request "A neon alley at night" "16:9" false)
              cloud_only) "storyboard.png" [] eq_refl eq_refl eq_refl)
    as (sv' & Hrun & _ & Hcalls & _).
  exists sv'. split; [exact Hrun | exact Hcalls].
Defined.

Lemma local_chat_is_free_witness :
  AIRouter.local_llm_available (Main.ai_router local_only) = true /\
  CostTracker.write_ok (Main.ledger quiet_hour) = true /\
  exists sv',
    Main.chat render quiet_hour
      (Main.mk_chat_request "Is the edit too slow?" (Some "clip") true)
      local_only =
      (Main.Response (Main.mk_chat_reply "Competent but flat." "local_llm" 0),
       sv') /\
    CostTracker.total_cost (CostTracker.self (Main.cost_tracker sv')) =
      CostTracker.total_cost (CostTracker.self (Main.cost_tracker local_only)).
Proof.
  split; [reflexivity|]. split; [reflexivity|].
  destruct (proj1 (local_chat_is_free render quiet_hour
              (Main.mk_chat_request "Is the edit too slow?" (Some "clip") true)
              local_only prose_llama
              (AIRouter.mk_chat_completion "Competent but flat." 42)
              eq_refl eq_refl eq_refl eq_refl eq_refl))
    as (sv' & Hrun & Htotal & _).
  exists sv'. split; [exact Hrun | exact Htotal].
Defined.
